(** * django-delete-all: the safety policy and the two deletion front-ends

    A shallow embedding of [safety.py], [admin.py],
    [management/commands/delete_all.py], [cli.py] and [publish.py],
    followed by the properties of the safety-policy evaluator, of the
    deletion state machine, of the command-line entry point and of the
    publishing script.

    Conventions.
    - Python [int] is [Z]; [str] is [string] (a sequence of bytes); a Python
      [set] of strings is a [gset string]; [os.environ] and [request.POST]
      are [gmap string string].
    - A function that may raise returns a [res]; functions with effects run
      in the monad [M], which collects the observable events of a call
      (log records, writes to stdout, prompts, host ORM calls) in order.
    - The framework itself (application registry, ORM, [input]) is not part
      of the repository: its answers are the fields of a [Host] record. *)

From stdpp Require Import gmap strings pretty.
From Stdlib Require Import ZArith Ascii String List.
Import ListNotations.
Local Open Scope Z_scope.
Local Open Scope string_scope.

(** ** Python primitives *)
Module Py.

(** [c.lower()] on one byte: only [A]..[Z] change.  The strings compared
    against below hold ASCII letters and digits only, and no byte of a
    multi-byte UTF-8 sequence is below 128, so the byte-wise function
    decides the same comparisons as Python's [str.lower]. *)
Definition lower_ascii (c : ascii) : ascii :=
  let n := N_of_ascii c in
  if ((65 <=? n) && (n <=? 90))%N then ascii_of_N (n + 32) else c.

Fixpoint lower (s : string) : string :=
  match s with
  | EmptyString => EmptyString
  | String c s' => String (lower_ascii c) (lower s')
  end.

(** [s.startswith(p)]. *)
Fixpoint startswith (s p : string) {struct p} : bool :=
  match p with
  | EmptyString => true
  | String c p' =>
      match s with
      | EmptyString => false
      | String d s' => Ascii.eqb c d && startswith s' p'
      end
  end.

(** [needle in haystack] on strings. *)
Fixpoint contains (needle haystack : string) : bool :=
  startswith haystack needle
  || match haystack with
     | EmptyString => false
     | String _ rest => contains needle rest
     end.

(** [x in xs] for a list of strings. *)
Definition in_list (x : string) (xs : list string) : bool :=
  bool_decide (x ∈ xs).

(** [any(p(x) for x in xs)]. *)
Definition any {A} (p : A -> bool) (xs : list A) : bool := existsb p xs.

(** [d.get(key, dflt)]. *)
Definition get (d : gmap string string) (key dflt : string) : string :=
  default dflt (d !! key).

(** The f-string field [{n}] for an [int]. *)
Definition fmt_int (n : Z) : string := pretty n.

(** The double-quote character and the newline, as one-byte strings. *)
Definition dq : string := String "034"%char EmptyString.
Definition nl : string := String "010"%char EmptyString.

Inductive exn :=
| SafetyError (msg : string)
| CommandError (msg : string)
| PermissionDenied
| EOFError
| AttributeError (msg : string)
| HostError (msg : string).

(** [str(e)].  [EOFError] is the one that [input()] raises, with its
    message; [PermissionDenied] is raised without arguments. *)
Definition str_exn (e : exn) : string :=
  match e with
  | SafetyError msg | CommandError msg | AttributeError msg | HostError msg => msg
  | PermissionDenied => EmptyString
  | EOFError => "EOF when reading a line"
  end.

Inductive res (A : Type) :=
| Ret (a : A)
| Raise (e : exn).
Arguments Ret {A} a.
Arguments Raise {A} e.

End Py.
Export Py (exn(..), res(..)).

(** ** What the code sees of the framework *)
Module Django.

(** A model class: [model._meta.app_label], [model.__name__],
    [model._meta.verbose_name], [model._meta.verbose_name_plural]. *)
Record Model := {
  app_label : string;
  __name__ : string;
  verbose_name : string;
  verbose_name_plural : string;
}.

(** [model._meta.label] is ["%s.%s" % (app_label, object_name)], and
    [object_name] is the class name. *)
Definition label (model : Model) : string :=
  app_label model ++ "." ++ __name__ model.

(** The [DJANGO_DELETE_ALL] dictionary of the settings module: every key
    may be absent. *)
Record DeleteAllSettings := {
  ENABLED : option bool;
  PRODUCTION_ENABLED : option bool;
  EXCLUDED_APPS : option (list string);
  EXCLUDED_MODELS : option (list string);
  MAX_OBJECTS_WITHOUT_CONFIRMATION : option Z;
  REQUIRE_CONFIRMATION_ABOVE : option Z;
  AUDIT_DELETIONS : option bool;
  BACKUP_BEFORE_DELETE : option bool;
}.

(** The empty dictionary, the default of [getattr(settings, ..., {})]. *)
Definition no_settings : DeleteAllSettings :=
  {| ENABLED := None; PRODUCTION_ENABLED := None; EXCLUDED_APPS := None;
     EXCLUDED_MODELS := None; MAX_OBJECTS_WITHOUT_CONFIRMATION := None;
     REQUIRE_CONFIRMATION_ABOVE := None; AUDIT_DELETIONS := None;
     BACKUP_BEFORE_DELETE := None |}.

(** [django.conf.settings]: the attributes read by this package.
    [DATABASES] maps an alias to its options; the only option read is
    [NAME], through [str]. *)
Record Settings := {
  DJANGO_DELETE_ALL : option DeleteAllSettings;
  DEBUG : option bool;
  DATABASES : gmap string (gmap string string);
}.

Inductive LogLevel := INFO | WARNING.

Inductive Style := Plain | StyleWarning | StyleSuccess.

Inductive MsgLevel := MsgInfo | MsgError.

(** The observable steps of one call, in the order they happen. *)
Inductive Event :=
| EvLog (level : LogLevel) (msg : string)
| EvSafetyCheck (model : Model) (object_count : Z) (allowed : bool)
| EvHostCount (model : Model)
| EvHostDelete (model : Model)
| EvStdout (style : Style) (text : string)
| EvInput (prompt : string)
| EvMessage (level : MsgLevel) (template : string) (args : list string).

End Django.
Export Django.

(** ** The effect monad: a trace of events and a value or an exception *)
Module Eff.

Definition M (A : Type) : Type := list Event * res A.

Definition ret {A} (a : A) : M A := ([], Ret a).

Definition raise {A} (e : exn) : M A := ([], Raise e).

Definition emit (ev : Event) : M unit := ([ev], Ret tt).

Definition bind {A B} (m : M A) (k : A -> M B) : M B :=
  match m with
  | (t, Ret a) => let '(t', r) := k a in ((t ++ t')%list, r)
  | (t, Raise e) => (t, Raise e)
  end.

(** [try: m except ...: h(e)]; a handler that does not match re-raises. *)
Definition try_except {A} (m : M A) (h : exn -> M A) : M A :=
  match m with
  | (t, Ret a) => (t, Ret a)
  | (t, Raise e) => let '(t', r) := h e in ((t ++ t')%list, r)
  end.

(** Lift a pure partial result. *)
Definition lift {A} (r : res A) : M A := ([], r).

Definition trace {A} (m : M A) : list Event := fst m.
Definition outcome {A} (m : M A) : res A := snd m.

Declare Scope eff_scope.
Delimit Scope eff_scope with eff.
Notation "'let*' x ':=' m 'in' k" := (bind m (fun x => k))
  (at level 10, x pattern, m at level 100, k at level 200) : eff_scope.
Notation "'do' m 'then' k" := (bind m (fun _ => k))
  (at level 10, m at level 100, k at level 200) : eff_scope.

End Eff.
Import Eff.

(** ** safety.py *)
Module Safety.

Record SafetyConfig := {
  enabled : bool;
  production_enabled : bool;
  excluded_apps : gset string;
  excluded_models : gset string;
  max_objects_without_confirmation : Z;
  require_confirmation_above : Z;
  audit_deletions : bool;
  backup_before_delete : bool;
}.

Definition set_enabled (self : SafetyConfig) (b : bool) : SafetyConfig :=
  {| enabled := b;
     production_enabled := production_enabled self;
     excluded_apps := excluded_apps self;
     excluded_models := excluded_models self;
     max_objects_without_confirmation := max_objects_without_confirmation self;
     require_confirmation_above := require_confirmation_above self;
     audit_deletions := audit_deletions self;
     backup_before_delete := backup_before_delete self |}.

(** [SafetyConfig._apply_environment_overrides]: two assignments to
    [self.enabled], one warning. *)
Definition _apply_environment_overrides
    (environ : gmap string string) (self : SafetyConfig) : M SafetyConfig :=
  (let env := Py.lower (Py.get environ "DJANGO_ENV" EmptyString) in
   let* self :=
     (if Py.in_list env ["production"; "prod"] then
        if negb (production_enabled self) then
          do emit (EvLog WARNING
                     "django-delete-all disabled in production environment")
          then ret (set_enabled self false)
        else ret self
      else ret self) in
   if Py.in_list (Py.lower (Py.get environ "DJANGO_DELETE_ALL_DISABLED" EmptyString))
        ["true"; "1"]
   then ret (set_enabled self false)
   else ret self)%eff.

(** [SafetyConfig.load_settings]. *)
Definition load_settings
    (settings : Settings) (environ : gmap string string) : M SafetyConfig :=
  let django_delete_all_settings :=
    default no_settings (DJANGO_DELETE_ALL settings) in
  let self :=
    {| enabled := default true (ENABLED django_delete_all_settings);
       production_enabled :=
         default false (PRODUCTION_ENABLED django_delete_all_settings);
       excluded_apps :=
         list_to_set
           (default ["auth"; "admin"; "contenttypes"; "sessions"; "messages";
                     "staticfiles"]
              (EXCLUDED_APPS django_delete_all_settings));
       excluded_models :=
         list_to_set (default [] (EXCLUDED_MODELS django_delete_all_settings));
       max_objects_without_confirmation :=
         default 100
           (MAX_OBJECTS_WITHOUT_CONFIRMATION django_delete_all_settings);
       require_confirmation_above :=
         default 10 (REQUIRE_CONFIRMATION_ABOVE django_delete_all_settings);
       audit_deletions :=
         default true (AUDIT_DELETIONS django_delete_all_settings);
       backup_before_delete :=
         default false (BACKUP_BEFORE_DELETE django_delete_all_settings) |} in
  _apply_environment_overrides environ self.

(** [SafetyConfig.__init__]. *)
Definition __init__ (settings : Settings) (environ : gmap string string)
  : M SafetyConfig :=
  load_settings settings environ.

Definition is_enabled (self : SafetyConfig) : bool := enabled self.

(** [SafetyConfig.can_delete_model]: a pair (verdict, reason). *)
Definition can_delete_model (self : SafetyConfig) (model : Model)
  : bool * string :=
  if negb (is_enabled self) then (false, "django-delete-all is disabled")
  else
    let app_label := app_label model in
    let model_name := app_label ++ "." ++ __name__ model in
    if bool_decide (app_label ∈ excluded_apps self) then
      (false, "App '" ++ app_label ++ "' is in excluded apps list")
    else if bool_decide (model_name ∈ excluded_models self) then
      (false, "Model '" ++ model_name ++ "' is in excluded models list")
    else (true, "OK").

Definition requires_confirmation (self : SafetyConfig) (object_count : Z)
  : bool :=
  object_count >? require_confirmation_above self.

Definition allows_bulk_delete (self : SafetyConfig) (object_count : Z)
  : bool * string :=
  if object_count >? max_objects_without_confirmation self then
    (false,
     "Too many objects (" ++ Py.fmt_int object_count
       ++ "). Maximum allowed: "
       ++ Py.fmt_int (max_objects_without_confirmation self))
  else (true, "OK").

(** [check_deletion_safety], reading the module's global [safety]. *)
Definition check_deletion_safety
    (safety : SafetyConfig) (model : Model) (object_count : Z) : res bool :=
  let '(can_delete, reason) := can_delete_model safety model in
  if negb can_delete then
    Raise (SafetyError ("Deletion not allowed: " ++ reason))
  else
    let '(can_bulk_delete, reason) := allows_bulk_delete safety object_count in
    if negb can_bulk_delete then
      Raise (SafetyError ("Bulk deletion not allowed: " ++ reason))
    else Ret true.

(** [user or 'CLI'] inside an f-string: [None] is the absent user,
    [Some u] a user whose [str] is [u]. *)
Definition user_or_cli (user : option string) : string :=
  default "CLI" user.

Definition log_deletion_attempt
    (safety : SafetyConfig) (model : Model) (object_count : Z)
    (user : option string) : M unit :=
  if negb (audit_deletions safety) then ret tt
  else
    emit (EvLog INFO
            ("Deletion attempt: " ++ label model ++ " ("
               ++ Py.fmt_int object_count ++ " objects) by "
               ++ user_or_cli user)).

Definition log_deletion_success
    (safety : SafetyConfig) (model : Model) (deleted_count : Z)
    (user : option string) : M unit :=
  if negb (audit_deletions safety) then ret tt
  else
    emit (EvLog INFO
            ("Deletion completed: " ++ label model ++ " ("
               ++ Py.fmt_int deleted_count ++ " objects deleted) by "
               ++ user_or_cli user)).

End Safety.
Import Safety.

(** ** The framework's answers during one call *)
Module Host.

(** [apps.get_app_config(app_label)] gives an application object, whose
    [label], [get_model] and [get_models] the command uses; [None] stands
    for [LookupError].  [get_models()] is a generator: the field holds the
    models it yields, in order. *)
Record AppConfig := {
  config_label : string;
  get_model : string -> option Model;
  get_models : list Model;
}.

(** The answers of the application registry, of the ORM and of the
    terminal.  [objects_count] is the number that [model.objects.count()]
    returns: the query is taken to succeed.  [objects_delete] is
    [model.objects.all().delete()] inside [transaction.atomic()]: a deleted
    count with its per-model breakdown, or the exception it raised. *)
Record t := {
  get_app_config : string -> option AppConfig;
  objects_count : Model -> Z;
  objects_delete : Model -> res (Z * list (string * Z));
  stdin_line : option string;
}.

(** [bool(g)] for a generator object [g]: a generator has neither
    [__bool__] nor [__len__], so it is true whatever it yields. *)
Definition generator_truthy {A} (yielded : list A) : bool := true.

(** [model.objects.count()]. *)
Definition count (host : t) (model : Model) : M Z :=
  (do emit (EvHostCount model) then ret (objects_count host model))%eff.

(** [with transaction.atomic(): ... .delete()]. *)
Definition delete (host : t) (model : Model) : M (Z * list (string * Z)) :=
  (do emit (EvHostDelete model) then lift (objects_delete host model))%eff.

(** [input(prompt)]; a closed terminal raises [EOFError]. *)
Definition input (host : t) (prompt : string) : M string :=
  (do emit (EvInput prompt) then
   match stdin_line host with
   | Some line => ret line
   | None => raise EOFError
   end)%eff.

End Host.

(** A call of [check_deletion_safety] as a step of a front-end: the call
    and its verdict are recorded, then the result is passed on. *)
Definition call_check_deletion_safety
    (safety : SafetyConfig) (model : Model) (object_count : Z) : M bool :=
  let r := check_deletion_safety safety model object_count in
  (do emit (EvSafetyCheck model object_count
              match r with Ret _ => true | Raise _ => false end)
   then lift r)%eff.

(** ** admin.py *)
Module Admin.

Record Request := {
  user : option string;
  POST : gmap string string;
}.

Record ModelAdmin := {
  model : Model;
  has_delete_permission : Request -> bool;
}.

(** The entries of the confirmation page's context that are computed
    from the call (the others are constants of the framework). *)
Record Context := {
  title : string;
  object_name : string;
  object_count : Z;
  opts : Model;
  is_large_deletion : bool;
  max_without_confirmation : Z;
  requires_confirmation : bool;
}.

Inductive Response :=
| TemplateResponse (template : string) (context : Context).

(** [delete_all_action(modeladmin, request, queryset)]; [queryset], the
    rows ticked in the change list, is not read. *)
Definition delete_all_action
    (host : Host.t) (safety : SafetyConfig)
    (modeladmin : ModelAdmin) (request : Request) (queryset : list Z)
  : M (option Response) :=
  (let opts := model modeladmin in
   if negb (has_delete_permission modeladmin request) then
     raise PermissionDenied
   else
     let* object_count := Host.count host (model modeladmin) in
     let* checked :=
       try_except
         (do call_check_deletion_safety safety (model modeladmin) object_count
          then ret true)
         (fun e =>
            match e with
            | SafetyError _ =>
                do emit (EvMessage MsgError
                           ("<strong>Deletion Blocked for Safety:</strong><br/>"
                            ++ "{}<br/><br/>"
                            ++ "<strong>Current limits:</strong><br/>"
                            ++ "• Maximum objects without confirmation: {}<br/>"
                            ++ "• Objects found: {}<br/><br/>"
                            ++ "To adjust these limits, contact your administrator or "
                            ++ "modify DJANGO_DELETE_ALL settings.")
                           [Py.str_exn e;
                            Py.fmt_int (max_objects_without_confirmation safety);
                            Py.fmt_int object_count])
                then ret false
            | _ =>
                do emit (EvMessage MsgError
                           ("Unexpected error during safety check: "
                            ++ Py.str_exn e) [])
                then ret false
            end) in
     if negb checked then ret None
     else
       do log_deletion_attempt safety (model modeladmin) object_count
            (user request)
       then
       if bool_decide (POST request !! "post" = Some "yes") then
         if object_count >? 0 then
           try_except
             (let* (deleted_count, deleted_details) :=
                Host.delete host (model modeladmin) in
              do log_deletion_success safety (model modeladmin) deleted_count
                   (user request)
              then
              do emit (EvMessage MsgInfo
                         "Successfully deleted <strong>{}</strong> {}."
                         [Py.fmt_int deleted_count;
                          if negb (deleted_count =? 1)%Z
                          then verbose_name_plural opts
                          else verbose_name opts])
              then ret None)
             (fun e =>
                do emit (EvMessage MsgError
                           "Error during deletion: <strong>{}</strong>"
                           [Py.str_exn e])
                then ret None)
         else
           do emit (EvMessage MsgInfo
                      ("No " ++ verbose_name_plural opts ++ " to delete.") [])
           then ret None
       else
         ret (Some
                (TemplateResponse "admin/delete_all_confirmation.html"
                   {| title := "Delete all " ++ verbose_name_plural opts;
                      object_name := verbose_name opts;
                      object_count := object_count;
                      opts := opts;
                      is_large_deletion := object_count >? 100;
                      max_without_confirmation :=
                        max_objects_without_confirmation safety;
                      requires_confirmation :=
                        Safety.requires_confirmation safety object_count |})))%eff.

End Admin.

(** ** management/commands/delete_all.py *)
Module Command.

(** The parsed command line. [model_name] is [None] when the optional
    positional argument is left out. *)
Module Options.
Record t := {
  app_label : string;
  model_name : option string;
  force : bool;
  dry_run : bool;
  production_override : bool;
}.
End Options.

(** The command object: the process it runs in.  [verbosity] is the
    attribute [self.verbosity], [None] when the object has none. *)
Record Command := {
  settings : Settings;
  environ : gmap string string;
  safety : SafetyConfig;
  verbosity : option Z;
}.

Definition write (style : Style) (text : string) : M unit :=
  emit (EvStdout style text).

(** [Command._is_safe_environment]. *)
Definition _is_safe_environment (self : Command) : bool :=
  if match DEBUG (settings self) with
     | Some debug => negb debug
     | None => false
     end
  then false
  else
    let env := Py.lower (Py.get (environ self) "DJANGO_ENV" EmptyString) in
    if Py.in_list env ["production"; "prod"] then false
    else
      let db_name :=
        Py.get (default ∅ (DATABASES (settings self) !! "default"))
          "NAME" EmptyString in
      if Py.any (fun indicator => Py.contains indicator (Py.lower db_name))
           ["prod"; "production"]
      then false
      else true.

(** [Command._list_models]. *)
Definition _list_models (host : Host.t) (app_config : Host.AppConfig)
  : M unit :=
  (let models := Host.get_models app_config in
   if negb (Host.generator_truthy models) then
     write Plain
       ("No models found in app " ++ Py.dq ++ Host.config_label app_config
          ++ Py.dq ++ ".")
   else
     do write Plain
          ("Available models in " ++ Py.dq ++ Host.config_label app_config
             ++ Py.dq ++ ":")
     then
     fold_right
       (fun model rest =>
          let* count := Host.count host model in
          do write Plain
               ("  - " ++ __name__ model ++ " (" ++ Py.fmt_int count
                  ++ " objects)")
          then rest)
       (ret tt) models)%eff.

(** The loop over [deleted_details.items()]. *)
Definition write_details (deleted_details : list (string * Z)) : M unit :=
  fold_right
    (fun '(model_name, count) rest =>
       if (count >? 0)%Z then
         (do write Plain ("  - " ++ model_name ++ ": " ++ Py.fmt_int count)
          then rest)%eff
       else rest)
    (ret tt) deleted_details.

(** [Command.handle]. *)
Definition handle (host : Host.t) (self : Command) (options : Options.t)
  : M unit :=
  (let app_label := Options.app_label options in
   let model_name := Options.model_name options in
   let force := Options.force options in
   let dry_run := Options.dry_run options in
   let production_override := Options.production_override options in
   if negb (_is_safe_environment self) && negb production_override then
     raise (CommandError
              ("This command is disabled in production environments. "
               ++ "Use --production-override if you really need to run this in production."))
   else
     match Host.get_app_config host app_label with
     | None =>
         raise (CommandError ("App " ++ Py.dq ++ app_label ++ Py.dq
                              ++ " not found."))
     | Some app_config =>
         match model_name with
         | None | Some EmptyString => _list_models host app_config
         | Some model_name =>
             match Host.get_model app_config model_name with
             | None =>
                 raise (CommandError
                          ("Model " ++ Py.dq ++ model_name ++ Py.dq
                           ++ " not found in app " ++ Py.dq ++ app_label
                           ++ Py.dq ++ ". "
                           ++ "Run command without model name to see available models."))
             | Some model =>
                 let* object_count := Host.count host model in
                 if (object_count =? 0)%Z then
                   write StyleWarning
                     ("No " ++ verbose_name_plural model
                      ++ " found to delete.")
                 else
                   do write StyleWarning
                        ("Found " ++ Py.fmt_int object_count ++ " "
                         ++ verbose_name_plural model ++ " to delete.")
                   then
                   if dry_run then
                     write StyleSuccess
                       "DRY RUN: No objects were actually deleted."
                   else
                     let* proceed :=
                       (if negb force then
                          let* confirm :=
                            Host.input host
                              ("Are you sure you want to delete ALL "
                               ++ Py.fmt_int object_count ++ " "
                               ++ verbose_name_plural model
                               ++ "? This cannot be undone! (yes/no): ") in
                          if negb (String.eqb (Py.lower confirm) "yes") then
                            do write StyleSuccess "Operation cancelled."
                            then ret false
                          else ret true
                        else ret true) in
                     if negb proceed then ret tt
                     else
                       try_except
                         (do call_check_deletion_safety (safety self) model
                               object_count
                          then
                          let* (deleted_count, deleted_details) :=
                            Host.delete host model in
                          do write StyleSuccess
                               ("Successfully deleted "
                                ++ Py.fmt_int deleted_count ++ " "
                                ++ verbose_name_plural model ++ ".")
                          then
                          match verbosity self with
                          | None =>
                              raise (AttributeError
                                       "'Command' object has no attribute 'verbosity'")
                          | Some verbosity =>
                              if (verbosity >? 1)%Z
                              then write_details deleted_details
                              else ret tt
                          end)
                         (fun e =>
                            match e with
                            | SafetyError _ =>
                                raise (CommandError
                                         ("Deletion blocked for safety: "
                                          ++ Py.str_exn e ++ Py.nl ++ Py.nl
                                          ++ "To adjust safety limits, modify DJANGO_DELETE_ALL settings in your Django configuration."))
                            | _ =>
                                raise (CommandError
                                         ("Error during deletion: "
                                          ++ Py.str_exn e))
                            end)
             end
         end
     end)%eff.

(** The call gets past the environment guard and the two lookups:
    [model] is the class whose rows [handle] counts. *)
Definition resolves (host : Host.t) (self : Command)
    (options : Options.t) (model : Model) : Prop :=
  negb (_is_safe_environment self) && negb (Options.production_override options)
  = false
  /\ exists (app_config : Host.AppConfig) (name : string),
       Host.get_app_config host (Options.app_label options) = Some app_config
       /\ Options.model_name options = Some name
       /\ name <> EmptyString
       /\ Host.get_model app_config name = Some model.

End Command.

(** ** The process: the module-level [safety = SafetyConfig()] *)
Module Process.

(** The state a running process holds: its environment, its settings and
    the policy object built when [safety.py] was imported. *)
Record t := {
  environ : gmap string string;
  settings : Settings;
  safety : SafetyConfig;
}.



(** [check_deletion_safety(model, object_count)] called in process [p]. *)
Definition evaluate (p : t) (model : Model) (object_count : Z) : res bool :=
  check_deletion_safety (safety p) model object_count.

End Process.

(** ** The evaluator as the specification words it *)
Module Spec.

Inductive Reason :=
| Disabled
| NamespaceExcluded
| IdentifierExcluded
| TooManyObjects.

Inductive Decision :=
| Allowed
| Blocked (reason : Reason).

(** The four rules in their order, over an identifier given as the pair
    (namespace, name); the excluded-identifier set holds identifiers
    written [namespace.name]. *)
Definition evaluate
    (policy : SafetyConfig) (namespace name : string) (count : Z)
  : Decision :=
  if negb (enabled policy) then Blocked Disabled
  else if bool_decide (namespace ∈ excluded_apps policy) then
    Blocked NamespaceExcluded
  else if bool_decide (namespace ++ "." ++ name ∈ excluded_models policy) then
    Blocked IdentifierExcluded
  else if bool_decide (count > max_objects_without_confirmation policy)%Z then
    Blocked TooManyObjects
  else Allowed.

(** The text the code raises for each reason. *)
Definition message
    (policy : SafetyConfig) (namespace name : string) (count : Z)
    (reason : Reason) : string :=
  match reason with
  | Disabled => "Deletion not allowed: django-delete-all is disabled"
  | NamespaceExcluded =>
      "Deletion not allowed: App '" ++ namespace
        ++ "' is in excluded apps list"
  | IdentifierExcluded =>
      "Deletion not allowed: Model '" ++ namespace ++ "." ++ name
        ++ "' is in excluded models list"
  | TooManyObjects =>
      "Bulk deletion not allowed: Too many objects (" ++ Py.fmt_int count
        ++ "). Maximum allowed: "
        ++ Py.fmt_int (max_objects_without_confirmation policy)
  end.

(** A decision as a result of [check_deletion_safety]. *)
Definition to_result
    (policy : SafetyConfig) (namespace name : string) (count : Z)
    (d : Decision) : res bool :=
  match d with
  | Allowed => Ret true
  | Blocked reason =>
      Raise (SafetyError (message policy namespace name count reason))
  end.

(** Which reason a raised text stands for, read off its first words. *)
Definition reason_of_text (text : string) : option Reason :=
  if String.eqb text "Deletion not allowed: django-delete-all is disabled"
  then Some Disabled
  else if Py.startswith text "Deletion not allowed: App '"
  then Some NamespaceExcluded
  else if Py.startswith text "Deletion not allowed: Model '"
  then Some IdentifierExcluded
  else if Py.startswith text "Bulk deletion not allowed: Too many objects ("
  then Some TooManyObjects
  else None.

End Spec.

(** ** Classes of events *)
Module Trace.

Definition is_host_delete (ev : Event) : bool :=
  match ev with EvHostDelete _ => true | _ => false end.

Definition is_safety_check (ev : Event) : bool :=
  match ev with EvSafetyCheck _ _ _ => true | _ => false end.

Definition is_prompt (ev : Event) : bool :=
  match ev with EvInput _ => true | _ => false end.


(** The reports of a deletion that succeeded: the command's success line,
    the admin's success message, the audit entry of a completed
    deletion. *)
Definition is_success_report (ev : Event) : bool :=
  match ev with
  | EvStdout StyleSuccess text => Py.startswith text "Successfully deleted "
  | EvMessage MsgInfo template _ =>
      String.eqb template "Successfully deleted <strong>{}</strong> {}."
  | EvLog INFO msg => Py.startswith msg "Deletion completed: "
  | _ => false
  end.

(** The events of a listing and of the verbose breakdown: counts and
    plain lines. *)
Definition is_listing (ev : Event) : bool :=
  match ev with
  | EvHostCount _ | EvStdout Plain _ => true
  | _ => false
  end.

#[global] Instance Model_eq_dec : EqDecision Model.
Proof. solve_decision. Defined.

Definition is_allowed_check (model : Model) (count : Z) (ev : Event) : bool :=
  match ev with
  | EvSafetyCheck m n true => bool_decide (m = model) && bool_decide (n = count)
  | _ => false
  end.


(** A monitor run along a trace: every event that satisfies [trigger]
    comes after an event that satisfies [first] ([seen] says whether one
    has already happened). *)
Fixpoint preceded (first trigger : Event -> bool) (seen : bool)
    (tr : list Event) : bool :=
  match tr with
  | [] => true
  | ev :: rest =>
      (negb (trigger ev) || seen)
      && preceded first trigger (seen || first ev) rest
  end.

End Trace.

(** ** Concrete processes, hosts and calls *)
Module Sample.

Definition order : Model :=
  {| app_label := "shop"; __name__ := "Order";
     verbose_name := "order"; verbose_name_plural := "orders" |}.

Definition auth_user : Model :=
  {| app_label := "auth"; __name__ := "User";
     verbose_name := "user"; verbose_name_plural := "users" |}.

(** The policy of a process with no [DJANGO_DELETE_ALL] setting. *)
Definition default_policy : SafetyConfig :=
  {| enabled := true;
     production_enabled := false;
     excluded_apps :=
       list_to_set ["auth"; "admin"; "contenttypes"; "sessions"; "messages";
                    "staticfiles"];
     excluded_models := list_to_set [];
     max_objects_without_confirmation := 100;
     require_confirmation_above := 10;
     audit_deletions := true;
     backup_before_delete := false |}.

Definition disabled_policy : SafetyConfig := set_enabled default_policy false.

(** A development settings module, and one whose database is named after
    production. *)
Definition dev_settings : Settings :=
  {| DJANGO_DELETE_ALL := None;
     DEBUG := Some true;
     DATABASES := {[ "default" := {[ "NAME" := "db.sqlite3" ]} ]} |}.


(** Settings that switch everything on, and two environments. *)
Definition enabled_settings : Settings :=
  {| DJANGO_DELETE_ALL := Some
       {| ENABLED := Some true; PRODUCTION_ENABLED := Some true;
          EXCLUDED_APPS := None; EXCLUDED_MODELS := None;
          MAX_OBJECTS_WITHOUT_CONFIRMATION := None;
          REQUIRE_CONFIRMATION_ABOVE := None; AUDIT_DELETIONS := None;
          BACKUP_BEFORE_DELETE := None |};
     DEBUG := Some true;
     DATABASES := {[ "default" := {[ "NAME" := "db.sqlite3" ]} ]} |}.

Definition disabling_environ : gmap string string :=
  {[ "DJANGO_DELETE_ALL_DISABLED" := "True" ]}.


Definition shop : Host.AppConfig :=
  {| Host.config_label := "shop";
     Host.get_model :=
       fun name =>
         if String.eqb (Py.lower name) "order" then Some order else None;
     Host.get_models := [order] |}.

Definition auth_app : Host.AppConfig :=
  {| Host.config_label := "auth";
     Host.get_model :=
       fun name =>
         if String.eqb (Py.lower name) "user" then Some auth_user else None;
     Host.get_models := [auth_user] |}.

(** A host with the two applications, [count] rows in every table, a
    delete that answers [deleted] and a terminal that answers [line]. *)
Definition host (count : Z) (deleted : res (Z * list (string * Z)))
    (line : option string) : Host.t :=
  {| Host.get_app_config :=
       fun app_label =>
         if String.eqb app_label "shop" then Some shop
         else if String.eqb app_label "auth" then Some auth_app
         else None;
     Host.objects_count := fun _ => count;
     Host.objects_delete := fun _ => deleted;
     Host.stdin_line := line |}.

Definition command (policy : SafetyConfig) : Command.Command :=
  {| Command.settings := dev_settings;
     Command.environ := ∅;
     Command.safety := policy;
     Command.verbosity := Some 1 |}.

Definition options (app_label name : string) (force dry_run : bool)
  : Command.Options.t :=
  {| Command.Options.app_label := app_label;
     Command.Options.model_name := Some name;
     Command.Options.force := force;
     Command.Options.dry_run := dry_run;
     Command.Options.production_override := false |}.

Definition order_admin : Admin.ModelAdmin :=
  {| Admin.model := order; Admin.has_delete_permission := fun _ => true |}.

(** The confirming request of the admin action. *)
Definition confirming_request : Admin.Request :=
  {| Admin.user := Some "alice"; Admin.POST := {[ "post" := "yes" ]} |}.

End Sample.

(** ** What a trace holds *)
Module Observe.

(** A record written through the logger, at any level. *)
Definition is_log (ev : Event) : bool :=
  match ev with EvLog _ _ => true | _ => false end.

(** The models whose rows were counted, in the order of the calls. *)
Definition counted (tr : list Event) : list Model :=
  flat_map (fun ev => match ev with EvHostCount model => [model] | _ => [] end)
    tr.

(** The lines written to stdout, in order. *)
Definition written (tr : list Event) : list (Style * string) :=
  flat_map
    (fun ev => match ev with EvStdout style text => [(style, text)] | _ => [] end)
    tr.

End Observe.

(** ** Programs with a state: trace, state and a value or an exception *)
Module Prog.

Section Monad.

Context {S E X : Type}.

Inductive result (A : Type) :=
| Done (a : A)
| Failed (x : X).

Definition t (A : Type) : Type := S -> list E * S * result A.

Definition ret {A} (a : A) : t A := fun s => ([], s, Done A a).

Definition fail {A} (x : X) : t A := fun s => ([], s, Failed A x).

Definition emit (e : E) : t unit := fun s => ([e], s, Done unit tt).

Definition get : t S := fun s => ([], s, Done S s).

Definition put (s' : S) : t unit := fun _ => ([], s', Done unit tt).

Definition bind {A B} (m : t A) (k : A -> t B) : t B :=
  fun s =>
    match m s with
    | (tr, s1, Done _ a) => let '(tr', s2, r) := k a s1 in ((tr ++ tr')%list, s2, r)
    | (tr, s1, Failed _ x) => (tr, s1, Failed B x)
    end.

(** [try: m except Exception as x: h(x)]. *)
Definition try_except {A} (m : t A) (h : X -> t A) : t A :=
  fun s =>
    match m s with
    | (tr, s1, Done _ a) => (tr, s1, Done A a)
    | (tr, s1, Failed _ x) =>
        let '(tr', s2, r) := h x s1 in ((tr ++ tr')%list, s2, r)
    end.

Definition events {A} (run : list E * S * result A) : list E := fst (fst run).
Definition final {A} (run : list E * S * result A) : S := snd (fst run).
Definition value {A} (run : list E * S * result A) : result A := snd run.

End Monad.

Arguments result : clear implicits.
Arguments t : clear implicits.
Arguments Done {X A} a.
Arguments Failed {X A} x.

End Prog.

Declare Scope prog_scope.
Delimit Scope prog_scope with prog.
Notation "'let*' x ':=' m 'in' k" := (Prog.bind m (fun x => k))
  (at level 10, x pattern, m at level 100, k at level 200) : prog_scope.
Notation "'do' m 'then' k" := (Prog.bind m (fun _ => k))
  (at level 10, m at level 100, k at level 200) : prog_scope.

(** ** cli.py *)
Module Cli.

(** The part of the process that the entry point changes. *)
Record Proc := {
  environ : gmap string string;
  sys_path : list string;
}.

(** What [importlib.util.find_spec] does: a spec, [None], one of the
    exceptions that [_test_settings_module] catches ([ImportError],
    [ModuleNotFoundError], [ValueError]), or another exception. *)
Inductive FindSpec :=
| SpecFound
| SpecMissing
| SpecImportError
| SpecOtherError (text : string).

(** The operating system, the import system and the framework as the
    entry point meets them.  A path is absolute and given by the names
    below the root, outermost first.  [read_text] is [None] when it raises;
    [search_settings_module] is group 1 of the [re.search] for the
    [setdefault] call, [None] without a match; [repr_list] is [repr] of a
    list of strings; [django_setup] is [Some] of the text of the exception
    that [django.setup()] raised; [command_in] is the command object that
    [call_command] runs in the process.  Django and click are installed:
    the imports inside the functions succeed. *)
Record Os := {
  cwd : list string;
  path_exists : list string -> bool;
  read_text : list string -> option string;
  search_settings_module : string -> option string;
  find_spec : list string -> string -> FindSpec;
  repr_list : list string -> string;
  django_setup : Proc -> option string;
  command_in : Proc -> Command.Command;
}.

(** [Path.parent]: the root is its own parent. *)
Definition parent (path : list string) : list string := removelast path.

(** [Path.name]: empty for the root. *)
Definition name (path : list string) : string := last path EmptyString.

(** [str(path)]. *)
Definition str_path (path : list string) : string :=
  match path with
  | [] => "/"
  | _ => fold_right (fun part rest => "/" ++ part ++ rest) EmptyString path
  end.

(** The exceptions met below; all are instances of [Exception]. *)
Inductive exn :=
| ClickException (message : string)
| OtherException (text : string)
| CommandException (e : Py.exn).

Definition str_exn (e : exn) : string :=
  match e with
  | ClickException message => message
  | OtherException text => text
  | CommandException e => Py.str_exn e
  end.

(** [click.echo(text, err=err)], and the events of the management
    command run through [call_command]. *)
Inductive Event :=
| Echo (err : bool) (text : string)
| Ran (ev : Django.Event).

Definition C (A : Type) : Type := Prog.t Proc Event exn A.

Definition echo (text : string) : C unit := Prog.emit (Echo false text).

(** [sys.path.insert(0, entry)]. *)
Definition insert_path (entry : string) : C unit :=
  (let* proc := Prog.get in
   Prog.put {| environ := environ proc; sys_path := entry :: sys_path proc |})%prog.

(** The loop of [_find_manage_py_directory], [fuel] rounds left. *)
Fixpoint find_manage_py (os : Os) (fuel : nat) (current_path : list string)
  : option (list string) :=
  match fuel with
  | O => None
  | S fuel' =>
      if path_exists os (current_path ++ ["manage.py"]) then Some current_path
      else
        let parent := parent current_path in
        if bool_decide (parent = current_path) then None
        else find_manage_py os fuel' parent
  end.

(** [_find_manage_py_directory]. *)
Definition _find_manage_py_directory (os : Os) : option (list string) :=
  find_manage_py os 4 (cwd os).

(** [_test_settings_module]. *)
Definition _test_settings_module (os : Os) (module_name : string) : C bool :=
  (let current_dir := str_path (cwd os) in
   let* proc := Prog.get in
   do (if negb (Py.in_list current_dir (sys_path proc))
       then insert_path current_dir
       else Prog.ret tt)
   then
   let* proc := Prog.get in
   match find_spec os (sys_path proc) module_name with
   | SpecFound => Prog.ret true
   | SpecMissing => Prog.ret false
   | SpecImportError => Prog.ret false
   | SpecOtherError text => Prog.fail (OtherException text)
   end)%prog.

(** The loop over the candidates of [_detect_django_settings]. *)
Fixpoint first_importable (os : Os) (candidates : list string)
  : C (option string) :=
  match candidates with
  | [] => Prog.ret None
  | candidate :: others =>
      (let* importable := _test_settings_module os candidate in
       if importable then Prog.ret (Some candidate)
       else first_importable os others)%prog
  end.

(** The candidates, in the order they are tried. *)
Definition candidates (os : Os) : list string :=
  let project_name := name (cwd os) in
  ["testsite.settings"; project_name ++ ".settings"; "config.settings";
   "settings.settings"; "core.settings"; "settings"].

(** What the scan of [manage.py] yields, if anything. *)
Definition settings_from_manage_py (os : Os) : option string :=
  match _find_manage_py_directory os with
  | Some manage_py_dir =>
      match read_text os (manage_py_dir ++ ["manage.py"]) with
      | Some content => search_settings_module os content
      | None => None
      end
  | None => None
  end.

(** [_detect_django_settings]. *)
Definition _detect_django_settings (os : Os) : C (option string) :=
  (let* proc := Prog.get in
   match environ proc !! "DJANGO_SETTINGS_MODULE" with
   | Some (String c rest) => Prog.ret (Some (String c rest))
   | _ =>
       match settings_from_manage_py os with
       | Some settings_module => Prog.ret (Some settings_module)
       | None => first_importable os (candidates os)
       end
   end)%prog.

(** [if not x] for an optional string: [None] and the empty string. *)
Definition falsy (x : option string) : bool :=
  match x with
  | Some (String _ _) => false
  | _ => true
  end.

(** [os.environ.setdefault(key, value)]. *)
Definition setdefault (key value : string) : C unit :=
  (let* proc := Prog.get in
   match environ proc !! key with
   | Some _ => Prog.ret tt
   | None =>
       Prog.put {| environ := <[key := value]> (environ proc);
                   sys_path := sys_path proc |}
   end)%prog.

(** [_setup_django], the second definition of the module, which is the one
    in force. *)
Definition _setup_django (os : Os) (settings_module : option string)
    (verbose : bool) : C unit :=
  (let* settings_module :=
     (if falsy settings_module then
        do (if verbose then echo "Detecting Django settings..."
            else Prog.ret tt)
        then
        let* settings_module := _detect_django_settings os in
        do (if verbose && negb (falsy settings_module)
            then echo ("Found settings: " ++ default EmptyString settings_module)
            else Prog.ret tt)
        then
        if falsy settings_module then
          Prog.fail
            (ClickException
               ("Could not find Django settings. Either:" ++ Py.nl
                ++ "1. Run from your Django project directory, or" ++ Py.nl
                ++ "2. Use --settings option, or" ++ Py.nl
                ++ "3. Set DJANGO_SETTINGS_MODULE environment variable" ++ Py.nl
                ++ "4. Current directory: " ++ str_path (cwd os)))
        else Prog.ret (default EmptyString settings_module)
      else Prog.ret (default EmptyString settings_module)) in
   let current_dir := str_path (cwd os) in
   let* proc := Prog.get in
   do (if negb (Py.in_list current_dir (sys_path proc)) then
         do insert_path current_dir
         then
         if verbose then echo ("Added to Python path: " ++ current_dir)
         else Prog.ret tt
       else Prog.ret tt)
   then
   let* proc := Prog.get in
   do (match _find_manage_py_directory os with
       | Some manage_py_dir =>
           if negb (String.eqb (str_path manage_py_dir) current_dir)
              && negb (Py.in_list (str_path manage_py_dir) (sys_path proc))
           then
             do insert_path (str_path manage_py_dir)
             then
             if verbose then
               echo ("Added manage.py directory to Python path: "
                     ++ str_path manage_py_dir)
             else Prog.ret tt
           else Prog.ret tt
       | None => Prog.ret tt
       end)
   then
   do setdefault "DJANGO_SETTINGS_MODULE" settings_module
   then
   let* proc := Prog.get in
   match django_setup os proc with
   | None =>
       if verbose then echo "✓ Django setup successful" else Prog.ret tt
   | Some text =>
       do (if verbose then
             echo ("Django setup failed. Python path: "
                   ++ repr_list os (take 3 (sys_path proc)) ++ "...")
           else Prog.ret tt)
       then Prog.fail (ClickException ("Failed to setup Django: " ++ text))
   end)%prog.

(** [_run_delete_command]: [call_command] parses the positional arguments
    and the options into the options of [Command.handle]. *)
Definition _run_delete_command (host : Host.t) (command : Command.Command)
    (app_label : string) (model_name : option string)
    (force dry_run production_override : bool) : M unit :=
  Command.handle host command
    {| Command.Options.app_label := app_label;
       Command.Options.model_name :=
         if falsy model_name then None else model_name;
       Command.Options.force := force;
       Command.Options.dry_run := dry_run;
       Command.Options.production_override := production_override |}.

(** A call of the management command inside the entry point, for a
    project that has the application installed (so that [call_command]
    finds [delete_all]) and passes the system checks: the events and the
    exception of [handle] are passed on. *)
Definition call_command (os : Os) (run : Command.Command -> M unit) : C unit :=
  fun proc =>
    let '(tr, r) := run (command_in os proc) in
    (map Ran tr, proc,
     match r with
     | Ret _ => Prog.Done tt
     | Raise e => Prog.Failed (CommandException e)
     end).

(** The [delete] command: the events, the process it leaves and the exit
    status (0 when the function returns, 1 from [sys.exit(1)]). *)
Definition delete (os : Os) (host : Host.t)
    (app_label : string) (model_name : option string)
    (force dry_run production_override : bool)
    (settings : option string) (verbose : bool)
  : Proc -> list Event * Proc * Z :=
  fun proc =>
    match
      (do _setup_django os settings verbose
       then
       call_command os
         (fun command =>
            _run_delete_command host command app_label model_name force
              dry_run production_override))%prog proc
    with
    | (tr, proc', Prog.Done _) => (tr, proc', 0%Z)
    | (tr, proc', Prog.Failed e) =>
        ((tr ++ [Echo true ("Error: " ++ str_exn e)])%list, proc', 1%Z)
    end.

(** An event of the management command, as opposed to a line of the
    entry point itself. *)
Definition is_ran (ev : Event) : bool :=
  match ev with Ran _ => true | Echo _ _ => false end.

End Cli.

(** ** publish.py *)
Module Publish.

(** [print(text)], the shell command handed to [subprocess.run], the
    prompt of [input], and [parser.print_help()]. *)
Inductive Event :=
| Print (text : string)
| Shell (cmd : string)
| Input (prompt : string)
| PrintHelp.

Inductive exn :=
| CalledProcessError (cmd : string) (returncode : Z)
| EOFError.

(** The exit status of each shell command, whether [pyproject.toml] is in
    the current directory, and the line typed at the prompt ([None]: the
    terminal is closed). *)
Record World := {
  returncode : string -> Z;
  pyproject_toml_exists : bool;
  stdin_line : option string;
}.

(** The parsed flags. *)
Record Args := {
  test : bool;
  prod : bool;
  check : bool;
}.

Definition P (A : Type) : Type := Prog.t unit Event exn A.

Definition print (text : string) : P unit := Prog.emit (Print text).

(** [run_command(cmd, check)]: with [check] a non-zero status raises. *)
Definition run_command (world : World) (cmd : string) (check : bool) : P bool :=
  (do print ("Running: " ++ cmd)
   then
   do Prog.emit (Shell cmd)
   then
   let code := returncode world cmd in
   if check && negb (code =? 0)%Z then Prog.fail (CalledProcessError cmd code)
   else Prog.ret (code =? 0)%Z)%prog.

(** The loop of [check_requirements]: the tools that [which] does not
    find, appended to [missing]. *)
Fixpoint find_missing (world : World) (required_tools missing : list string)
  : P (list string) :=
  match required_tools with
  | [] => Prog.ret missing
  | tool :: others =>
      (let* found := run_command world ("which " ++ tool) false in
       find_missing world others
         (if negb found then (missing ++ [tool])%list else missing))%prog
  end.

(** [', '.join(parts)]. *)
Fixpoint join_comma (parts : list string) : string :=
  match parts with
  | [] => EmptyString
  | [part] => part
  | part :: others => part ++ ", " ++ join_comma others
  end.

Definition check_requirements (world : World) : P bool :=
  (let* missing := find_missing world ["twine"; "build"] [] in
   match missing with
   | [] => Prog.ret true
   | _ =>
       do print ("Missing required tools: " ++ join_comma missing)
       then
       do print "Install with: pip install build twine"
       then Prog.ret false
   end)%prog.

(** The loop of [clean_build]. *)
Fixpoint remove_all (world : World) (paths : list string) : P unit :=
  match paths with
  | [] => Prog.ret tt
  | path :: others =>
      (do run_command world ("rm -rf " ++ path) false
       then remove_all world others)%prog
  end.

Definition clean_build (world : World) : P unit :=
  (do print "Cleaning previous builds..."
   then remove_all world ["dist"; "build"; "*.egg-info"])%prog.

Definition build_package (world : World) : P bool :=
  (do print "Building package..."
   then run_command world "python -m build" true)%prog.

Definition check_package (world : World) : P bool :=
  (do print "Checking package..."
   then run_command world "twine check dist/*" true)%prog.

Definition upload_to_testpypi (world : World) : P bool :=
  (do print "Uploading to TestPyPI..."
   then run_command world "twine upload --repository testpypi dist/*" true)%prog.

Definition upload_to_pypi (world : World) : P bool :=
  (do print "Uploading to PyPI..."
   then run_command world "twine upload dist/*" true)%prog.

(** [input(prompt)]. *)
Definition input (world : World) (prompt : string) : P string :=
  (do Prog.emit (Input prompt)
   then
   match stdin_line world with
   | Some line => Prog.ret line
   | None => Prog.fail EOFError
   end)%prog.

(** [main]: the value it returns is the exit status. *)
Definition main (world : World) (args : Args) : P Z :=
  (if negb (Py.any id [test args; prod args; check args]) then
     do Prog.emit PrintHelp then Prog.ret 1%Z
   else if negb (pyproject_toml_exists world) then
     do print "Error: pyproject.toml not found. Run from package root."
     then Prog.ret 1%Z
   else
     let* tools := check_requirements world in
     if negb tools then Prog.ret 1%Z
     else
       do clean_build world
       then
       let* built := build_package world in
       if negb built then do print "Build failed!" then Prog.ret 1%Z
       else
         let* checked := check_package world in
         if negb checked then
           do print "Package check failed!" then Prog.ret 1%Z
         else if check args then
           do print "✅ Package build and check successful!"
           then Prog.ret 0%Z
         else if test args then
           let* uploaded := upload_to_testpypi world in
           if uploaded then
             do print "✅ Successfully uploaded to TestPyPI!"
             then
             do print
                  "Install with: pip install -i https://test.pypi.org/simple/ django-delete-all"
             then Prog.ret 0%Z
           else
             do print "❌ Upload to TestPyPI failed!" then Prog.ret 1%Z
         else if prod args then
           let* confirm :=
             input world "Are you sure you want to upload to PyPI? (yes/no): " in
           if negb (String.eqb (Py.lower confirm) "yes") then
             do print "Upload cancelled." then Prog.ret 0%Z
           else
             let* uploaded := upload_to_pypi world in
             if uploaded then
               do print "✅ Successfully uploaded to PyPI!"
               then
               do print "Install with: pip install django-delete-all"
               then Prog.ret 0%Z
             else do print "❌ Upload to PyPI failed!" then Prog.ret 1%Z
         else Prog.ret 0%Z)%prog.

(** Whether a trace holds the shell command [cmd], or the line [text]. *)
Definition ran (cmd : string) (tr : list Event) : bool :=
  existsb (fun ev => match ev with Shell c => String.eqb c cmd | _ => false end)
    tr.

Definition printed (text : string) (tr : list Event) : bool :=
  existsb (fun ev => match ev with Print t => String.eqb t text | _ => false end)
    tr.

(** The run of [main] from the only state there is. *)
Definition run_main (world : World) (args : Args)
  : list Event * unit * Prog.result exn Z :=
  main world args tt.

End Publish.

(** ** Further concrete values *)
Module Sample2.

(** A project in [/home/me/proj] with the shell in [/home/me/proj/app]:
    [manage.py] names [proj.settings], and set-up succeeds. *)
Definition os : Cli.Os :=
  {| Cli.cwd := ["home"; "me"; "proj"; "app"];
     Cli.path_exists :=
       fun path => bool_decide (path = ["home"; "me"; "proj"; "manage.py"]);
     Cli.read_text := fun _ => Some "os.environ.setdefault(...)";
     Cli.search_settings_module := fun _ => Some "proj.settings";
     Cli.find_spec := fun _ _ => Cli.SpecMissing;
     Cli.repr_list := fun _ => "[...]";
     Cli.django_setup := fun _ => None;
     Cli.command_in := fun _ => Sample.command Sample.default_policy |}.

(** A process started with [DJANGO_SETTINGS_MODULE=shop.settings]. *)
Definition proc : Cli.Proc :=
  {| Cli.environ := {[ "DJANGO_SETTINGS_MODULE" := "shop.settings" ]};
     Cli.sys_path := ["/usr/lib/python3"] |}.

(** The default policy with the threshold lowered to 50. *)
Definition strict_policy : SafetyConfig :=
  {| enabled := true;
     production_enabled := false;
     excluded_apps := excluded_apps Sample.default_policy;
     excluded_models := excluded_models Sample.default_policy;
     max_objects_without_confirmation := 50;
     require_confirmation_above := 10;
     audit_deletions := true;
     backup_before_delete := false |}.

(** The admin of a model of an excluded application. *)
Definition user_admin : Admin.ModelAdmin :=
  {| Admin.model := Sample.auth_user;
     Admin.has_delete_permission := fun _ => true |}.

(** A command object in another safe process. *)
Definition other_command : Command.Command :=
  {| Command.settings := Sample.enabled_settings;
     Command.environ := {[ "HOME" := "/home/me" ]};
     Command.safety := Sample.default_policy;
     Command.verbosity := Some 1%Z |}.

(** A host whose delete fails. *)
Definition failing_host : Host.t :=
  Sample.host 5 (Raise (HostError "database is locked")) None.

End Sample2.

(** * Properties *)

(** ** The evaluator *)
Section Evaluator.

Variable safety : SafetyConfig.

Lemma gtb_bool_decide (a b : Z) : (a >? b)%Z = bool_decide (a > b)%Z.
Proof.
  rewrite Z.gtb_ltb. case_bool_decide; [apply Z.ltb_lt | apply Z.ltb_ge]; lia.
Qed.

Lemma string_app_assoc (a b c : string) : (a ++ b) ++ c = a ++ (b ++ c).
Proof.
  induction a as [| ch a IH]; [reflexivity |].
  change (String ch ((a ++ b) ++ c) = String ch (a ++ (b ++ c))).
  now rewrite IH.
Qed.

Lemma allows_bulk_delete_over count :
  (count > max_objects_without_confirmation safety)%Z ->
  fst (allows_bulk_delete safety count) = false.
Proof.
  intros H. unfold allows_bulk_delete.
  rewrite gtb_bool_decide, bool_decide_eq_true_2 by exact H. reflexivity.
Qed.

(** C1. [check_deletion_safety] is the four rules of the specification in
    their order: policy disabled, namespace excluded, identifier excluded,
    count above the max-without-confirmation threshold; the first rule
    that fails gives the text of the raised [SafetyError], and when none
    fails the call returns [True].  The texts of the four rules are told
    apart by their first words. *)
Theorem check_deletion_safety_is_ordered_rules :
  forall (model : Model) (count : Z),
    check_deletion_safety safety model count
    = Spec.to_result safety (app_label model) (__name__ model) count
        (Spec.evaluate safety (app_label model) (__name__ model) count)
    /\ (forall reason : Spec.Reason,
          Spec.reason_of_text
            (Spec.message safety (app_label model) (__name__ model) count
               reason)
          = Some reason).
Proof.
  intros model count. split.
  - unfold check_deletion_safety, can_delete_model, allows_bulk_delete,
      is_enabled, Spec.evaluate.
    destruct (enabled safety); simpl; [| reflexivity].
    case_bool_decide; simpl; [reflexivity |].
    case_bool_decide; simpl.
    { now rewrite !string_app_assoc. }
    rewrite gtb_bool_decide. case_bool_decide; reflexivity.
  - intros []; reflexivity.
Qed.

(** C7. A count above the max-without-confirmation threshold is always
    blocked, whatever the exclusion sets hold. *)
Theorem over_threshold_is_blocked :
  forall (model : Model) (count : Z),
    (count > max_objects_without_confirmation safety)%Z ->
    exists text : string,
      check_deletion_safety safety model count = Raise (SafetyError text).
Proof.
  intros model count Hover.
  unfold check_deletion_safety.
  destruct (can_delete_model safety model) as [[] reason]; simpl.
  - pose proof (allows_bulk_delete_over count Hover) as Hbulk.
    destruct (allows_bulk_delete safety count) as [ok why]; simpl in *.
    subst ok. simpl. eauto.
  - eauto.
Qed.

(** C8. [requires_confirmation] compares the count with the
    require-confirmation-above threshold and with nothing else: a policy
    with the same threshold answers the same whatever the evaluator says,
    and the evaluator answers the same under any value of that
    threshold. *)
Theorem requires_confirmation_is_separate_signal :
  forall count : Z,
    (requires_confirmation safety count = true
     <-> (count > require_confirmation_above safety)%Z)
    /\ (forall other : SafetyConfig,
          require_confirmation_above other = require_confirmation_above safety ->
          requires_confirmation other count
          = requires_confirmation safety count)
    /\ (forall (other : SafetyConfig) (model : Model) (n : Z),
          enabled other = enabled safety ->
          excluded_apps other = excluded_apps safety ->
          excluded_models other = excluded_models safety ->
          max_objects_without_confirmation other
          = max_objects_without_confirmation safety ->
          check_deletion_safety other model n
          = check_deletion_safety safety model n).
Proof.
  intros count. split; [| split].
  - unfold requires_confirmation. rewrite gtb_bool_decide.
    apply bool_decide_eq_true.
  - intros other Hsame. unfold requires_confirmation. now rewrite Hsame.
  - intros other model n He Ha Hm Hx.
    unfold check_deletion_safety, can_delete_model, allows_bulk_delete,
      is_enabled.
    now rewrite He, Ha, Hm, Hx.
Qed.

End Evaluator.

(** ** Construction of the policy *)
Section Construction.

Variables (settings : Settings) (environ : gmap string string).

Lemma in_list_true (x : string) (xs : list string) :
  x ∈ xs -> Py.in_list x xs = true.
Proof. intros Hin. unfold Py.in_list. now apply bool_decide_eq_true_2. Qed.

Lemma get_present (d : gmap string string) (key dflt value : string) :
  d !! key = Some value -> Py.get d key dflt = value.
Proof. intros Hkey. unfold Py.get. now rewrite Hkey. Qed.

(** The policy object always gets built. *)
Lemma load_settings_returns :
  exists policy : SafetyConfig,
    outcome (load_settings settings environ) = Ret policy.
Proof.
  unfold load_settings, _apply_environment_overrides.
  repeat match goal with
         | |- context [if ?c then _ else _] => destruct c
         end; simpl; eauto.
Qed.

(** C9. When [DJANGO_DELETE_ALL_DISABLED] holds [true] or [1] in any
    letter case, the constructed policy is disabled, whatever [ENABLED],
    [PRODUCTION_ENABLED] and [DJANGO_ENV] are: the test comes after the
    production test and does not read its result. *)
Theorem explicit_disable_forces_disabled :
  forall value : string,
    environ !! "DJANGO_DELETE_ALL_DISABLED" = Some value ->
    Py.lower value = "true" \/ Py.lower value = "1" ->
    exists policy : SafetyConfig,
      outcome (Safety.__init__ settings environ) = Ret policy
      /\ enabled policy = false
      /\ forall (model : Model) (count : Z),
           check_deletion_safety policy model count
           = Raise (SafetyError
                      "Deletion not allowed: django-delete-all is disabled").
Proof.
  intros value Hset Hvalue.
  assert (Hin : Py.in_list
                  (Py.lower
                     (Py.get environ "DJANGO_DELETE_ALL_DISABLED" EmptyString))
                  ["true"; "1"] = true).
  { apply in_list_true. rewrite (get_present _ _ _ _ Hset).
    destruct Hvalue as [-> | ->]; set_solver. }
  unfold Safety.__init__, load_settings, _apply_environment_overrides.
  rewrite Hin.
  destruct (Py.in_list _ ["production"; "prod"]);
    [destruct (negb _) |]; simpl; eexists; (split; [reflexivity |]);
    split; reflexivity || (intros; reflexivity).
Qed.


End Construction.

(** ** Traces of the effect monad *)
Section Traces.

Context {A B : Type}.

Lemma trace_bind (m : M A) (k : A -> M B) :
  trace (bind m k)
  = (trace m ++ match outcome m with
                | Ret a => trace (k a)
                | Raise _ => []
                end)%list.
Proof.
  destruct m as [t [a | e]]; simpl.
  - destruct (k a); reflexivity.
  - now rewrite app_nil_r.
Qed.

Lemma outcome_bind (m : M A) (k : A -> M B) :
  outcome (bind m k)
  = match outcome m with
    | Ret a => outcome (k a)
    | Raise e => Raise e
    end.
Proof.
  destruct m as [t [a | e]]; simpl; [destruct (k a) |]; reflexivity.
Qed.

Lemma bind_emit (ev : Event) (k : unit -> M B) :
  bind (emit ev) k = (ev :: trace (k tt), outcome (k tt)).
Proof. unfold bind, emit. destruct (k tt); reflexivity. Qed.

End Traces.

Lemma forallb_weaken {X} (p q : X -> bool) (l : list X) :
  (forall x, p x = true -> q x = true) ->
  forallb p l = true -> forallb q l = true.
Proof.
  intros Hpq. induction l as [| x l IH]; simpl; [reflexivity |].
  intros [Hx Hl]%andb_prop. rewrite (Hpq _ Hx). now apply IH.
Qed.

Lemma count_run (host : Host.t) (model : Model) :
  Host.count host model
  = ([EvHostCount model], Ret (Host.objects_count host model)).
Proof. reflexivity. Qed.

(** The listing only counts and writes plain lines, and it returns. *)
Lemma list_models_listing (host : Host.t) (app_config : Host.AppConfig) :
  forallb Trace.is_listing (trace (Command._list_models host app_config)) = true
  /\ outcome (Command._list_models host app_config) = Ret tt.
Proof.
  unfold Command._list_models, Command.write, Host.generator_truthy.
  cbn [negb].
  rewrite bind_emit. cbn [trace outcome fst snd forallb Trace.is_listing andb].
  generalize (Host.get_models app_config). intros models.
  induction models as [| model models [IHt IHo]]; [split; reflexivity |].
  cbn [fold_right].
  rewrite trace_bind, outcome_bind, count_run.
  cbn [trace outcome fst snd]. rewrite bind_emit.
  cbn [trace outcome fst snd app forallb Trace.is_listing andb]. auto.
Qed.

(** So does the verbose breakdown. *)
Lemma write_details_listing (deleted_details : list (string * Z)) :
  forallb Trace.is_listing (trace (Command.write_details deleted_details)) = true
  /\ outcome (Command.write_details deleted_details) = Ret tt.
Proof.
  unfold Command.write_details.
  induction deleted_details as [| [name count] rest [IHt IHo]];
    [split; reflexivity |].
  cbn [fold_right]. destruct (count >? 0)%Z; [| auto].
  unfold Command.write. rewrite bind_emit.
  cbn [trace outcome fst snd forallb Trace.is_listing andb]. auto.
Qed.

(** ** The monitor *)
Section Monitor.

Variables first trigger : Event -> bool.

Lemma preceded_seen (tr : list Event) :
  Trace.preceded first trigger true tr = true.
Proof. induction tr as [| ev tr IH]; simpl; [reflexivity |]. now rewrite orb_true_r. Qed.

Lemma preceded_cons_skip (seen : bool) (ev : Event) (tr : list Event) :
  trigger ev = false -> first ev = false ->
  Trace.preceded first trigger seen (ev :: tr)
  = Trace.preceded first trigger seen tr.
Proof. intros Ht Hf. simpl. now rewrite Ht, Hf, orb_false_r. Qed.

Lemma preceded_cons_first (seen : bool) (ev : Event) (tr : list Event) :
  trigger ev = false -> first ev = true ->
  Trace.preceded first trigger seen (ev :: tr) = true.
Proof.
  intros Ht Hf. simpl. rewrite Ht, Hf, orb_true_r. apply preceded_seen.
Qed.

Lemma preceded_without_trigger (seen : bool) (tr : list Event) :
  forallb (fun ev => negb (trigger ev)) tr = true ->
  Trace.preceded first trigger seen tr = true.
Proof.
  revert seen. induction tr as [| ev tr IH]; simpl; [reflexivity |].
  intros seen [Hev Htr]%andb_prop. rewrite Hev. simpl. now apply IH.
Qed.

(** What the monitor accepts: a triggering event has a [first] event
    somewhere before it. *)
Lemma preceded_sound (seen : bool) (tr before after : list Event)
    (ev : Event) :
  Trace.preceded first trigger seen tr = true ->
  tr = (before ++ ev :: after)%list ->
  trigger ev = true ->
  seen = true \/ existsb first before = true.
Proof.
  revert seen tr. induction before as [| b before IH]; intros seen tr Hmon -> Hev.
  - simpl in Hmon. rewrite Hev in Hmon. simpl in Hmon.
    apply andb_prop in Hmon as [-> _]. now left.
  - simpl in Hmon. apply andb_prop in Hmon as [_ Hrest].
    destruct (IH _ _ Hrest eq_refl Hev) as [Hseen | Hbefore].
    + apply orb_prop in Hseen as [-> | Hb]; [now left |].
      right. simpl. now rewrite Hb.
    + right. simpl. now rewrite Hbefore, orb_true_r.
Qed.

End Monitor.

Lemma is_allowed_check_refl (model : Model) (count : Z) :
  Trace.is_allowed_check model count (EvSafetyCheck model count true) = true.
Proof.
  unfold Trace.is_allowed_check. now rewrite !bool_decide_eq_true_2.
Qed.

Lemma existsb_allowed_check (model : Model) (count : Z) (tr : list Event) :
  existsb (Trace.is_allowed_check model count) tr = true ->
  In (EvSafetyCheck model count true) tr.
Proof.
  intros (ev & Hin & Hev)%existsb_exists.
  destruct ev as [| m n [] | | | | |]; try discriminate.
  apply andb_prop in Hev as [Hm Hn].
  apply bool_decide_eq_true in Hm, Hn. now subst.
Qed.

Lemma forallb_In {X} (p : X -> bool) (l : list X) (x : X) :
  forallb p l = true -> In x l -> p x = true.
Proof. intros Hall Hin. now apply (proj1 (forallb_forall p l) Hall). Qed.

Lemma check_raises_safety_error safety model count (e : exn) :
  check_deletion_safety safety model count = Raise e ->
  exists text : string, e = SafetyError text.
Proof.
  unfold check_deletion_safety.
  destruct (can_delete_model safety model) as [[] ?]; simpl.
  - destruct (allows_bulk_delete safety count) as [[] ?]; simpl;
      intros [= <-]; eauto.
  - intros [= <-]; eauto.
Qed.

Lemma check_returns_true safety model count (v : bool) :
  check_deletion_safety safety model count = Ret v -> v = true.
Proof.
  unfold check_deletion_safety.
  destruct (can_delete_model safety model) as [[] ?]; simpl.
  - destruct (allows_bulk_delete safety count) as [[] ?]; simpl;
      intros [= <-]; eauto.
  - intros [= <-]; eauto.
Qed.

(** ** Case analysis of the two front-ends *)

Ltac run_effects :=
  cbv [bind try_except ret raise emit lift Host.count Host.delete Host.input
       Command.write call_check_deletion_safety log_deletion_attempt
       log_deletion_success trace outcome fst snd];
  cbn [app negb].

Ltac split_listing h a :=
  let Ht := fresh "Hlisting" in
  let Ho := fresh "Hlisted" in
  destruct (list_models_listing h a) as [Ht Ho];
  destruct (Command._list_models h a) as [listing listed];
  cbv [trace outcome fst snd] in Ht, Ho; subst listed.

Ltac split_breakdown d :=
  let Ht := fresh "Hbreakdown" in
  let Ho := fresh "Hwritten" in
  destruct (write_details_listing d) as [Ht Ho];
  destruct (Command.write_details d) as [breakdown written];
  cbv [trace outcome fst snd] in Ht, Ho; subst written.

Ltac split_check s m n :=
  let Hc := fresh "Hcheck" in
  let text := fresh "text" in
  destruct (check_deletion_safety s m n) as [allowed | blocked] eqn:Hc;
  [ pose proof (check_returns_true _ _ _ _ Hc); subst allowed
  | destruct (check_raises_safety_error _ _ _ _ Hc) as [text ->] ].

(** One step of [Command.handle]: split on the next test it makes. *)
Ltac handle_step :=
  match goal with
  | |- context [negb (Command._is_safe_environment ?s) && negb ?o] =>
      destruct (negb (Command._is_safe_environment s) && negb o) eqn:Hguard
  | |- context [Host.get_app_config ?h ?l] =>
      destruct (Host.get_app_config h l) as [app_config |] eqn:Happ
  | |- context [Command.Options.model_name ?o] =>
      destruct (Command.Options.model_name o) as [[| c name] |] eqn:Hname
  | |- context [Command._list_models ?h ?a] => split_listing h a
  | |- context [Host.get_model ?a ?n] =>
      destruct (Host.get_model a n) as [model |] eqn:Hmodel
  | |- context [(Host.objects_count ?h ?m =? 0)%Z] =>
      destruct (Host.objects_count h m =? 0)%Z eqn:Hzero
  | |- context [if Command.Options.dry_run ?o then _ else _] =>
      destruct (Command.Options.dry_run o) eqn:Hdry
  | |- context [negb (Command.Options.force ?o)] =>
      destruct (Command.Options.force o) eqn:Hforce
  | |- context [Host.stdin_line ?h] =>
      destruct (Host.stdin_line h) as [line |] eqn:Hline
  | |- context [String.eqb (Py.lower ?l) ?y] =>
      destruct (String.eqb (Py.lower l) y) eqn:Hyes
  | |- context [check_deletion_safety ?s ?m ?n] => split_check s m n
  | |- context [Host.objects_delete ?h ?m] =>
      destruct (Host.objects_delete h m)
        as [[deleted_count deleted_details] | []] eqn:Hdelete
  | |- context [Command.verbosity ?s] =>
      destruct (Command.verbosity s) as [verbosity |] eqn:Hverbosity
  | |- context [Command.write_details ?d] => split_breakdown d
  | |- context [(?v >? 1)%Z] => destruct (v >? 1)%Z eqn:Hverbose
  end.

Ltac handle_cases := repeat (run_effects; handle_step); run_effects.

(** One step of [Admin.delete_all_action]. *)
Ltac action_step :=
  match goal with
  | |- context [Admin.has_delete_permission ?a ?r] =>
      destruct (Admin.has_delete_permission a r) eqn:Hperm
  | |- context [check_deletion_safety ?s ?m ?n] => split_check s m n
  | |- context [audit_deletions ?s] =>
      destruct (audit_deletions s) eqn:Haudit
  | |- context [bool_decide (Admin.POST ?r !! ?k = Some ?v)] =>
      destruct (bool_decide (Admin.POST r !! k = Some v)) eqn:Hpost
  | |- context [(Host.objects_count ?h ?m >? 0)%Z] =>
      destruct (Host.objects_count h m >? 0)%Z eqn:Hrows
  | |- context [Host.objects_delete ?h ?m] =>
      destruct (Host.objects_delete h m)
        as [[deleted_count deleted_details] | []] eqn:Hdelete
  end.

Ltac action_cases := repeat (run_effects; action_step); run_effects.

(** Leaves of a monitor goal: skip the events that neither trigger nor
    count as [first], then close on the first [first] event, on the end of
    the trace, or on a tail of plain lines. *)
Ltac run_monitor :=
  repeat rewrite preceded_cons_skip by reflexivity;
  first
    [ reflexivity
    | apply preceded_cons_first;
      [reflexivity | first [reflexivity | apply is_allowed_check_refl]]
    | apply preceded_without_trigger;
      eapply forallb_weaken; [| eassumption];
      intros [| | | | [] | |]; simpl; intros; congruence ].

(** ** Success only after an allowed evaluation *)
Section SuccessAfterAllowed.

Lemma no_trigger_at_split (trigger : Event -> bool)
    (tr before after : list Event) (ev : Event) :
  forallb (fun e => negb (trigger e)) tr = true ->
  tr = (before ++ ev :: after)%list ->
  trigger ev = true -> False.
Proof.
  intros Hall -> Hev.
  assert (Hin : In ev (before ++ ev :: after)) by (apply in_elt).
  pose proof (forallb_In _ _ _ Hall Hin) as Hneg. simpl in Hneg.
  rewrite Hev in Hneg. discriminate.
Qed.

Lemma listing_no_success (tr : list Event) :
  forallb Trace.is_listing tr = true ->
  forallb (fun e => negb (Trace.is_success_report e)) tr = true.
Proof.
  apply forallb_weaken. intros [| | | | [] | |]; simpl; intros; congruence.
Qed.

(** Either the command reports no success at all, or it has resolved a
    model, the evaluation of that model and its count was allowed, and
    every success report comes after that evaluation. *)
Lemma handle_success_monitor
    (host : Host.t) (self : Command.Command) (options : Command.Options.t) :
  forallb (fun e => negb (Trace.is_success_report e))
    (trace (Command.handle host self options)) = true
  \/ exists model : Model,
       Command.resolves host self options model
       /\ check_deletion_safety (Command.safety self) model
            (Host.objects_count host model) = Ret true
       /\ Trace.preceded
            (Trace.is_allowed_check model (Host.objects_count host model))
            Trace.is_success_report false
            (trace (Command.handle host self options)) = true.
Proof.
  unfold Command.handle. handle_cases.
  all: try (left; first [reflexivity | now apply listing_no_success]).
  all: right; exists model.
  all: split;
    [ split;
      [ exact Hguard
      | exists app_config, (String c name);
        repeat split; try assumption; discriminate ]
    | split; [assumption |] ].
  all: run_monitor.
Qed.

Lemma action_success_monitor
    (host : Host.t) (safety : SafetyConfig) (modeladmin : Admin.ModelAdmin)
    (request : Admin.Request) (queryset : list Z) :
  forallb (fun e => negb (Trace.is_success_report e))
    (trace (Admin.delete_all_action host safety modeladmin request queryset))
  = true
  \/ (check_deletion_safety safety (Admin.model modeladmin)
        (Host.objects_count host (Admin.model modeladmin)) = Ret true
      /\ Trace.preceded
           (Trace.is_allowed_check (Admin.model modeladmin)
              (Host.objects_count host (Admin.model modeladmin)))
           Trace.is_success_report false
           (trace
              (Admin.delete_all_action host safety modeladmin request
                 queryset)) = true).
Proof.
  unfold Admin.delete_all_action. action_cases.
  all: try (left; reflexivity).
  all: right; (split; [reflexivity |]); run_monitor.
Qed.

(** C6. A success report (the command's success line, the admin's
    success message, the audit entry of a completed deletion) occurs in a
    call only after [check_deletion_safety] returned [True] in that call
    for the model being deleted and the count read at the start of the
    call; this holds on every path of the admin action and of the
    management command. *)
Theorem success_only_after_allowed :
  (forall (host : Host.t) (safety : SafetyConfig)
          (modeladmin : Admin.ModelAdmin) (request : Admin.Request)
          (queryset : list Z) (before after : list Event) (ev : Event),
      trace (Admin.delete_all_action host safety modeladmin request queryset)
      = (before ++ ev :: after)%list ->
      Trace.is_success_report ev = true ->
      In (EvSafetyCheck (Admin.model modeladmin)
            (Host.objects_count host (Admin.model modeladmin)) true) before
      /\ check_deletion_safety safety (Admin.model modeladmin)
           (Host.objects_count host (Admin.model modeladmin)) = Ret true)
  /\ (forall (host : Host.t) (self : Command.Command)
             (options : Command.Options.t) (before after : list Event)
             (ev : Event),
        trace (Command.handle host self options)
        = (before ++ ev :: after)%list ->
        Trace.is_success_report ev = true ->
        exists model : Model,
          Command.resolves host self options model
          /\ In (EvSafetyCheck model (Host.objects_count host model) true)
               before
          /\ check_deletion_safety (Command.safety self) model
               (Host.objects_count host model) = Ret true).
Proof.
  split.
  - intros host safety modeladmin request queryset before after ev Hsplit Hev.
    destruct (action_success_monitor host safety modeladmin request queryset)
      as [Hnone | [Hallowed Hmon]].
    + destruct (no_trigger_at_split _ _ _ _ _ Hnone Hsplit Hev).
    + split; [| exact Hallowed].
      destruct (preceded_sound _ _ _ _ _ _ _ Hmon Hsplit Hev)
        as [Hseen | Hbefore]; [discriminate |].
      now apply existsb_allowed_check.
  - intros host self options before after ev Hsplit Hev.
    destruct (handle_success_monitor host self options)
      as [Hnone | (model & Hres & Hallowed & Hmon)].
    + destruct (no_trigger_at_split _ _ _ _ _ Hnone Hsplit Hev).
    + exists model. split; [exact Hres |]. split; [| exact Hallowed].
      destruct (preceded_sound _ _ _ _ _ _ _ Hmon Hsplit Hev)
        as [Hseen | Hbefore]; [discriminate |].
      now apply existsb_allowed_check.
Qed.

End SuccessAfterAllowed.

(** ** Dry run and empty tables *)
Section EarlyReturns.

Variables (host : Host.t) (self : Command.Command)
          (options : Command.Options.t).

Lemma listing_no_delete (tr : list Event) :
  forallb Trace.is_listing tr = true ->
  forallb (fun ev => negb (Trace.is_host_delete ev)) tr = true.
Proof.
  apply forallb_weaken. intros [| | | | [] | |]; simpl; intros; congruence.
Qed.

(** C4. With the dry-run flag set the command never calls the host
    delete, on any path; once the model is resolved it counts the rows,
    writes the count (or that there is none) and returns. *)
Theorem dry_run_never_deletes :
  Command.Options.dry_run options = true ->
  forallb (fun ev => negb (Trace.is_host_delete ev))
    (trace (Command.handle host self options)) = true
  /\ forall model : Model,
       Command.resolves host self options model ->
       Command.handle host self options
       = if (Host.objects_count host model =? 0)%Z then
           ([EvHostCount model;
             EvStdout StyleWarning
               ("No " ++ verbose_name_plural model ++ " found to delete.")],
            Ret tt)
         else
           ([EvHostCount model;
             EvStdout StyleWarning
               ("Found " ++ Py.fmt_int (Host.objects_count host model) ++ " "
                ++ verbose_name_plural model ++ " to delete.");
             EvStdout StyleSuccess
               "DRY RUN: No objects were actually deleted."],
            Ret tt).
Proof.
  intros Hdry_run. split.
  - unfold Command.handle. rewrite Hdry_run. handle_cases.
    all: first [reflexivity | now apply listing_no_delete].
  - intros model (Hguard & app_config & name & Happ & Hname & Hne & Hmodel).
    unfold Command.handle. rewrite Hguard, Happ, Hname, Hdry_run.
    destruct name as [| c name]; [contradiction |].
    rewrite Hmodel. run_effects.
    destruct (Host.objects_count host model =? 0)%Z; reflexivity.
Qed.

(** C10. When the model the command resolves has no rows, the call makes
    no safety evaluation, shows no prompt and calls no delete, and it
    does not end in a safety block, whatever the policy says; past the
    environment guard it writes the nothing-to-delete warning and
    returns. *)
Theorem zero_count_returns_before_evaluation :
  forall (app_config : Host.AppConfig) (name : string) (model : Model),
    Host.get_app_config host (Command.Options.app_label options)
    = Some app_config ->
    Command.Options.model_name options = Some name ->
    name <> EmptyString ->
    Host.get_model app_config name = Some model ->
    Host.objects_count host model = 0%Z ->
    forallb
      (fun ev =>
         negb (Trace.is_safety_check ev) && negb (Trace.is_prompt ev)
         && negb (Trace.is_host_delete ev))
      (trace (Command.handle host self options)) = true
    /\ (forall text : string,
          outcome (Command.handle host self options)
          <> Raise (CommandError ("Deletion blocked for safety: " ++ text)))
    /\ (negb (Command._is_safe_environment self)
        && negb (Command.Options.production_override options) = false ->
        Command.handle host self options
        = ([EvHostCount model;
            EvStdout StyleWarning
              ("No " ++ verbose_name_plural model ++ " found to delete.")],
           Ret tt)).
Proof.
  intros app_config name model Happ Hname Hne Hmodel Hzero.
  unfold Command.handle. rewrite Happ, Hname.
  destruct name as [| c name]; [contradiction |].
  rewrite Hmodel. run_effects. rewrite Hzero. cbn [Z.eqb].
  destruct (negb (Command._is_safe_environment self) && _); run_effects.
  - repeat split; [intros text [=] | discriminate].
  - repeat split. intros text [=].
Qed.

End EarlyReturns.

(** ** Blocked calls *)

(** Find in a concrete trace the event that a hypothesis [H : In ev tr]
    speaks of. *)
Ltac locate_event H :=
  repeat match type of H with
         | In _ (_ :: _) =>
             destruct H as [H | H];
             [first [discriminate H | injection H as <- <-] |]
         | In _ [] => destruct H
         | In _ ?tail =>
             exfalso;
             match goal with
             | Hl : forallb Trace.is_listing tail = true |- _ =>
                 apply (forallb_In _ _ _ Hl) in H; discriminate H
             end
         end.

Section BlockedCalls.


End BlockedCalls.

(** ** Order of confirmation and evaluation *)
Section ConfirmationOrder.

(** Without [--force] and [--dry-run], the command's evaluation comes
    after its prompt. *)
Lemma handle_prompt_monitor
    (host : Host.t) (self : Command.Command) (options : Command.Options.t) :
  Command.Options.force options = false ->
  Command.Options.dry_run options = false ->
  Trace.preceded Trace.is_prompt Trace.is_safety_check false
    (trace (Command.handle host self options)) = true.
Proof.
  intros Hno_force Hno_dry.
  unfold Command.handle. rewrite Hno_force, Hno_dry. handle_cases.
  all: run_monitor.
Qed.

Lemma listing_exists_none (p : Event -> bool) (tr : list Event) :
  (forall ev, Trace.is_listing ev = true -> p ev = false) ->
  forallb Trace.is_listing tr = true -> existsb p tr = false.
Proof.
  intros Hp. induction tr as [| ev tr IH]; simpl; [reflexivity |].
  intros [Hev Htr]%andb_prop. now rewrite (Hp _ Hev), IH.
Qed.

(** Without [--force] and [--dry-run], the command evaluates the policy
    only when the line read at the prompt is yes, in any letter case. *)
Lemma handle_check_answered_yes
    (host : Host.t) (self : Command.Command) (options : Command.Options.t) :
  Command.Options.force options = false ->
  Command.Options.dry_run options = false ->
  existsb Trace.is_safety_check (trace (Command.handle host self options))
  = true ->
  exists answer : string,
    Host.stdin_line host = Some answer /\ Py.lower answer = "yes".
Proof.
  intros Hno_force Hno_dry.
  unfold Command.handle. rewrite Hno_force, Hno_dry. handle_cases.
  all: intros Hseen.
  all: first
         [ discriminate Hseen
         | rewrite (listing_exists_none Trace.is_safety_check listing) in Hseen;
           [ discriminate Hseen
           | intros [| | | | [] | |]; simpl; congruence
           | assumption ]
         | eexists; split;
           [reflexivity | apply String.eqb_eq; eassumption] ].
Qed.

(** C5, as the code has it. In the management command the confirmation
    comes first: without [--force] and [--dry-run], an evaluation of the
    policy happens only after the prompt has been shown and answered yes
    (in any letter case), and a Blocked result then keeps the delete from
    being called; it does not keep the prompt from appearing.  In the admin
    action the confirmation page is returned only after the evaluation
    returned Allowed. *)
Theorem confirmation_precedes_evaluation_in_command :
  (forall (host : Host.t) (self : Command.Command)
          (options : Command.Options.t),
      Command.Options.force options = false ->
      Command.Options.dry_run options = false ->
      (forall (before after : list Event) (ev : Event),
          trace (Command.handle host self options)
          = (before ++ ev :: after)%list ->
          Trace.is_safety_check ev = true ->
          existsb Trace.is_prompt before = true
          /\ exists answer : string,
               Host.stdin_line host = Some answer
               /\ Py.lower answer = "yes")
      /\ (forall (m : Model) (n : Z),
            In (EvSafetyCheck m n false)
              (trace (Command.handle host self options)) ->
            forallb (fun e => negb (Trace.is_host_delete e))
              (trace (Command.handle host self options)) = true))
  /\ (forall (host : Host.t) (safety : SafetyConfig)
             (modeladmin : Admin.ModelAdmin) (request : Admin.Request)
             (queryset : list Z) (response : Admin.Response),
        outcome (Admin.delete_all_action host safety modeladmin request
                   queryset) = Ret (Some response) ->
        In (EvSafetyCheck (Admin.model modeladmin)
              (Host.objects_count host (Admin.model modeladmin)) true)
          (trace (Admin.delete_all_action host safety modeladmin request
                    queryset))
        /\ check_deletion_safety safety (Admin.model modeladmin)
             (Host.objects_count host (Admin.model modeladmin)) = Ret true).
Proof.
  split.
  - intros host self options Hno_force Hno_dry. split.
    + intros before after ev Hsplit Hev. split.
      * pose proof (handle_prompt_monitor host self options Hno_force Hno_dry)
          as Hmon.
        destruct (preceded_sound _ _ _ _ _ _ _ Hmon Hsplit Hev)
          as [Hseen | Hbefore]; [discriminate | exact Hbefore].
      * apply (handle_check_answered_yes host self options Hno_force Hno_dry).
        rewrite Hsplit, existsb_app. cbn [existsb]. rewrite Hev.
        apply orb_true_r.
    + intros m n. unfold Command.handle. rewrite Hno_force, Hno_dry.
      handle_cases.
      all: intros Hin; locate_event Hin.
      all: reflexivity.
  - intros host safety modeladmin request queryset response.
    unfold Admin.delete_all_action. action_cases.
    all: intros Hout; try discriminate Hout.
    all: split; [cbn [In]; auto | reflexivity].
Qed.

End ConfirmationOrder.

(** ** The properties on concrete calls *)
Section Instances.

Import Sample.

(** 150 rows of an excluded application's model, threshold 100. *)
Lemma over_threshold_is_blocked_witness :
  (150 > max_objects_without_confirmation default_policy)%Z
  /\ exists text : string,
       check_deletion_safety default_policy auth_user 150
       = Raise (SafetyError text).
Proof.
  split; [reflexivity |].
  apply (over_threshold_is_blocked default_policy auth_user 150).
  reflexivity.
Defined.

(** 50 rows against the threshold 10, under an enabled and under a
    disabled policy. *)
Lemma requires_confirmation_is_separate_signal_witness :
  (50 > require_confirmation_above default_policy)%Z
  /\ requires_confirmation default_policy 50 = true
  /\ requires_confirmation disabled_policy 50
     = requires_confirmation default_policy 50.
Proof.
  destruct (requires_confirmation_is_separate_signal default_policy 50)
    as (Hiff & Hsame & _).
  split; [reflexivity |]. split.
  - apply Hiff. reflexivity.
  - apply Hsame. reflexivity.
Defined.

(** [ENABLED] and [PRODUCTION_ENABLED] both true, the disable variable
    set to [True]. *)
Lemma explicit_disable_forces_disabled_witness :
  exists policy : SafetyConfig,
    outcome (Safety.__init__ enabled_settings disabling_environ) = Ret policy
    /\ enabled policy = false
    /\ forall (model : Model) (count : Z),
         check_deletion_safety policy model count
         = Raise (SafetyError
                    "Deletion not allowed: django-delete-all is disabled").
Proof.
  apply (explicit_disable_forces_disabled enabled_settings disabling_environ
           "True").
  - vm_compute. reflexivity.
  - left. reflexivity.
Defined.





(** A dry run over five rows. *)
Lemma dry_run_never_deletes_witness :
  Command.Options.dry_run (options "shop" "Order" false true) = true
  /\ forallb (fun ev => negb (Trace.is_host_delete ev))
       (trace (Command.handle (host 5 (Ret (5, [])) None)
                 (command default_policy)
                 (options "shop" "Order" false true))) = true.
Proof.
  split; [reflexivity |].
  apply (dry_run_never_deletes (host 5 (Ret (5, [])) None)
           (command default_policy) (options "shop" "Order" false true)).
  reflexivity.
Defined.

(** An empty table of an excluded application under a disabled policy. *)
Lemma zero_count_returns_before_evaluation_witness :
  enabled disabled_policy = false
  /\ app_label auth_user ∈ excluded_apps disabled_policy
  /\ Command.handle (host 0 (Ret (0, [])) None) (command disabled_policy)
       (options "auth" "User" false false)
     = ([EvHostCount auth_user;
         EvStdout StyleWarning "No users found to delete."],
        Ret tt).
Proof.
  split; [reflexivity |].
  split; [apply (bool_decide_unpack _); vm_compute; exact I |].
  assert (Hname : "User" <> EmptyString) by discriminate.
  destruct (zero_count_returns_before_evaluation
              (host 0 (Ret (0, [])) None) (command disabled_policy)
              (options "auth" "User" false false) auth_app "User" auth_user
              eq_refl eq_refl Hname eq_refl eq_refl)
    as (_ & _ & Hrun).
  apply Hrun. reflexivity.
Defined.

(** C5 as stated fails: no [--force], no [--dry-run], the policy is
    disabled; the prompt is shown, the answer is yes, and only then is
    the policy evaluated and the call blocked. *)
Lemma prompt_is_shown_before_blocked_evaluation :
  let opts := options "shop" "Order" false false in
  let run :=
    Command.handle (host 5 (Ret (5, [])) (Some "yes"))
      (command disabled_policy) opts in
  Command.Options.force opts = false
  /\ Command.Options.dry_run opts = false
  /\ check_deletion_safety disabled_policy order 5
     = Raise (SafetyError
                "Deletion not allowed: django-delete-all is disabled")
  /\ exists (prompt : string) (before after : list Event),
       trace run = (before ++ EvInput prompt :: after)%list
       /\ existsb Trace.is_safety_check before = false
       /\ after = [EvSafetyCheck order 5 false].
Proof.
  repeat split.
  exists "Are you sure you want to delete ALL 5 orders? This cannot be undone! (yes/no): ",
    [EvHostCount order; EvStdout StyleWarning "Found 5 orders to delete."],
    [EvSafetyCheck order 5 false].
  repeat split.
Qed.

(** The same call, through the theorem: the evaluation has the prompt
    before it, and the answer was yes. *)
Lemma confirmation_precedes_evaluation_in_command_witness :
  existsb Trace.is_prompt
    [EvHostCount order; EvStdout StyleWarning "Found 5 orders to delete.";
     EvInput
       "Are you sure you want to delete ALL 5 orders? This cannot be undone! (yes/no): "]
  = true
  /\ exists answer : string,
       Host.stdin_line (host 5 (Ret (5, [])) (Some "yes")) = Some answer
       /\ Py.lower answer = "yes".
Proof.
  destruct (proj1 confirmation_precedes_evaluation_in_command
              (host 5 (Ret (5, [])) (Some "yes")) (command disabled_policy)
              (options "shop" "Order" false false) eq_refl eq_refl)
    as [Horder _].
  apply (Horder _ [] (EvSafetyCheck order 5 false)); reflexivity.
Defined.

(** A forced command call and a confirmed admin call that succeed. *)
Lemma success_only_after_allowed_witness :
  In (EvSafetyCheck order 5 true)
    [EvHostCount order; EvSafetyCheck order 5 true;
     EvLog INFO "Deletion attempt: shop.Order (5 objects) by alice";
     EvHostDelete order]
  /\ exists model : Model,
       Command.resolves (host 5 (Ret (5, [])) None) (command default_policy)
         (options "shop" "Order" true false) model
       /\ In (EvSafetyCheck model 5 true)
            [EvHostCount order;
             EvStdout StyleWarning "Found 5 orders to delete.";
             EvSafetyCheck order 5 true; EvHostDelete order].
Proof.
  split.
  - apply (proj1 success_only_after_allowed
             (host 5 (Ret (5, [])) None) default_policy order_admin
             confirming_request [] _
             [EvMessage MsgInfo "Successfully deleted <strong>{}</strong> {}."
                ["5"; "orders"]]
             (EvLog INFO
                "Deletion completed: shop.Order (5 objects deleted) by alice"));
      reflexivity.
  - destruct (proj2 success_only_after_allowed
                (host 5 (Ret (5, [])) None) (command default_policy)
                (options "shop" "Order" true false)
                [EvHostCount order;
                 EvStdout StyleWarning "Found 5 orders to delete.";
                 EvSafetyCheck order 5 true; EvHostDelete order]
                []
                (EvStdout StyleSuccess "Successfully deleted 5 orders."))
      as (model & Hres & Hin & _); [reflexivity | reflexivity |].
    exists model. split; assumption.
Defined.

End Instances.

(** * Further properties of the code *)

(** ** The policy that construction yields *)
Section ConstructedPolicy.

Variables (settings : Settings) (environ : gmap string string).

(** The configured values, before the environment is looked at. *)
Let configured : DeleteAllSettings :=
  default no_settings (DJANGO_DELETE_ALL settings).

Let in_production : bool :=
  Py.in_list (Py.lower (Py.get environ "DJANGO_ENV" EmptyString))
    ["production"; "prod"].

Let disabled_by_variable : bool :=
  Py.in_list
    (Py.lower (Py.get environ "DJANGO_DELETE_ALL_DISABLED" EmptyString))
    ["true"; "1"].

(** X1. The policy built by [SafetyConfig()] is enabled exactly when
    [ENABLED] is true (or absent), the production test does not fire and
    the disable variable is not set: the environment can switch the policy
    off and never on. *)
Theorem constructed_policy_enabled_iff :
  exists policy : SafetyConfig,
    outcome (Safety.__init__ settings environ) = Ret policy
    /\ (enabled policy = true
        <-> default true (ENABLED configured) = true
            /\ (in_production = true ->
                default false (PRODUCTION_ENABLED configured) = true)
            /\ disabled_by_variable = false).
Proof.
  subst configured in_production disabled_by_variable.
  unfold Safety.__init__, load_settings, _apply_environment_overrides.
  destruct (Py.in_list _ ["production"; "prod"]);
    destruct (Py.in_list _ ["true"; "1"]);
    cbn [production_enabled];
    destruct (default false _); simpl;
    eexists; (split; [reflexivity |]); simpl;
    destruct (default true _); intuition congruence.
Qed.

End ConstructedPolicy.

Section ConstructionFrame.

Variable settings : Settings.

(** X2. Two processes with the same settings and different environments
    get policies that differ at most in the enabled flag: the environment
    touches no exclusion set, no threshold and no audit switch. *)
Theorem environment_changes_only_enabled :
  forall environ1 environ2 : gmap string string,
    exists policy1 policy2 : SafetyConfig,
      outcome (Safety.__init__ settings environ1) = Ret policy1
      /\ outcome (Safety.__init__ settings environ2) = Ret policy2
      /\ set_enabled policy1 true = set_enabled policy2 true.
Proof.
  intros environ1 environ2.
  unfold Safety.__init__, load_settings, _apply_environment_overrides.
  repeat match goal with
         | |- context [if ?c then _ else _] => destruct c
         end; simpl; eexists _, _; repeat split.
Qed.

(** X3. Construction logs one warning when the production test switches
    the policy off (also when [ENABLED] was false already) and nothing
    otherwise: the disable variable acts silently. *)
Theorem construction_logs_production_override_only :
  forall environ : gmap string string,
    trace (Safety.__init__ settings environ)
    = if Py.in_list (Py.lower (Py.get environ "DJANGO_ENV" EmptyString))
           ["production"; "prod"]
         && negb (default false
                    (PRODUCTION_ENABLED
                       (default no_settings (DJANGO_DELETE_ALL settings))))
      then [EvLog WARNING
              "django-delete-all disabled in production environment"]
      else [].
Proof.
  intros environ.
  unfold Safety.__init__, load_settings, _apply_environment_overrides.
  destruct (Py.in_list _ ["production"; "prod"]);
    destruct (Py.in_list _ ["true"; "1"]);
    cbn [production_enabled]; destruct (default false _); reflexivity.
Qed.

End ConstructionFrame.

(** ** Allowed evaluations *)
Section AllowedEvaluations.

Lemma check_allowed_iff (safety : SafetyConfig) (model : Model) (count : Z) :
  check_deletion_safety safety model count = Ret true
  <-> enabled safety = true
      /\ (app_label model ∉ excluded_apps safety)
      /\ ((app_label model ++ "." ++ __name__ model) ∉ excluded_models safety)
      /\ (count <= max_objects_without_confirmation safety)%Z.
Proof.
  unfold check_deletion_safety, can_delete_model, allows_bulk_delete,
    is_enabled.
  destruct (enabled safety); simpl; [| intuition discriminate].
  case_bool_decide; simpl; [intuition discriminate |].
  case_bool_decide; simpl; [intuition discriminate |].
  rewrite gtb_bool_decide. case_bool_decide; simpl.
  - split; [discriminate | intros (_ & _ & _ & Hle); lia].
  - split; [intros _; repeat split; auto; lia | reflexivity].
Qed.

(** X4. With no [DJANGO_DELETE_ALL] setting and neither environment
    variable set, a deletion is allowed exactly for a model outside the six
    framework applications with at most 100 rows. *)
Theorem default_policy_allows_iff :
  forall (settings : Settings) (environ : gmap string string),
    DJANGO_DELETE_ALL settings = None ->
    environ !! "DJANGO_ENV" = None ->
    environ !! "DJANGO_DELETE_ALL_DISABLED" = None ->
    exists policy : SafetyConfig,
      outcome (Safety.__init__ settings environ) = Ret policy
      /\ forall (model : Model) (count : Z),
           check_deletion_safety policy model count = Ret true
           <-> (app_label model
                ∉ ["auth"; "admin"; "contenttypes"; "sessions"; "messages";
                   "staticfiles"])
               /\ (count <= 100)%Z.
Proof.
  intros settings environ Hnone Henv Hdis.
  unfold Safety.__init__, load_settings, _apply_environment_overrides, Py.get.
  rewrite Hnone, Henv, Hdis. simpl. eexists. split; [reflexivity |].
  intros model count. rewrite check_allowed_iff. simpl.
  rewrite !not_elem_of_cons, !not_elem_of_union, !not_elem_of_singleton.
  pose proof (not_elem_of_empty (C := gset string) (app_label model)).
  pose proof (not_elem_of_empty (C := gset string)
                (app_label model ++ "." ++ __name__ model)).
  pose proof (not_elem_of_nil (app_label model)).
  tauto.
Qed.

(** X5. An allowed deletion stays allowed for every smaller count of the
    same model. *)
Theorem allowed_for_smaller_counts :
  forall (safety : SafetyConfig) (model : Model) (count smaller : Z),
    check_deletion_safety safety model count = Ret true ->
    (smaller <= count)%Z ->
    check_deletion_safety safety model smaller = Ret true.
Proof.
  intros safety model count smaller Hallowed Hle.
  apply check_allowed_iff in Hallowed as (He & Ha & Hm & Hc).
  apply check_allowed_iff. repeat split; auto. lia.
Qed.

(** X6. Tightening a policy never allows more: what a policy with larger
    exclusion sets and a lower threshold allows, the looser policy allows
    too. *)
Theorem tighter_policy_allows_less :
  forall (loose tight : SafetyConfig) (model : Model) (count : Z),
    (enabled tight = true -> enabled loose = true) ->
    excluded_apps loose ⊆ excluded_apps tight ->
    excluded_models loose ⊆ excluded_models tight ->
    (max_objects_without_confirmation tight
     <= max_objects_without_confirmation loose)%Z ->
    check_deletion_safety tight model count = Ret true ->
    check_deletion_safety loose model count = Ret true.
Proof.
  intros loose tight model count Hen Happs Hmodels Hmax Hallowed.
  apply check_allowed_iff in Hallowed as (He & Ha & Hm & Hc).
  apply check_allowed_iff. repeat split; [auto | set_solver | set_solver | lia].
Qed.

End AllowedEvaluations.

(** ** The admin action, path by path *)

(** Bring the tests recorded by [action_cases] into the form of the
    statements. *)
Ltac read_tests :=
  repeat match goal with
         | H : bool_decide _ = true |- _ => apply bool_decide_eq_true in H
         | H : bool_decide _ = false |- _ => apply bool_decide_eq_false in H
         | H : (_ >? _)%Z = true |- _ =>
             rewrite Z.gtb_ltb in H; apply Z.ltb_lt in H
         | H : (_ >? _)%Z = false |- _ =>
             rewrite Z.gtb_ltb in H; apply Z.ltb_ge in H
         | H : (_ =? _)%Z = true |- _ => apply Z.eqb_eq in H
         | H : (_ =? _)%Z = false |- _ => apply Z.eqb_neq in H
         | H : String.eqb _ _ = true |- _ => apply String.eqb_eq in H
         | H : String.eqb _ _ = false |- _ => apply String.eqb_neq in H
         end.

Section AdminPaths.

Variables (host : Host.t) (safety : SafetyConfig)
          (modeladmin : Admin.ModelAdmin) (request : Admin.Request)
          (queryset : list Z).

Let target : Model := Admin.model modeladmin.
Let rows : Z := Host.objects_count host (Admin.model modeladmin).
Let run : M (option Admin.Response) :=
  Admin.delete_all_action host safety modeladmin request queryset.

(** X7. The admin action calls the host delete exactly when the user may
    delete, the evaluation allowed the model and its count, the request is
    the confirming one and there is at least one row. *)
Theorem admin_deletes_iff :
  existsb Trace.is_host_delete (trace run) = true
  <-> Admin.has_delete_permission modeladmin request = true
      /\ check_deletion_safety safety target rows = Ret true
      /\ Admin.POST request !! "post" = Some "yes"
      /\ (rows > 0)%Z.
Proof.
  subst target rows run. unfold Admin.delete_all_action. action_cases.
  all: read_tests.
  all: split;
    [ intros Hdel; first [discriminate Hdel | repeat split; auto; lia]
    | intros (Hp & Hc & Hy & Hr);
      first [reflexivity | discriminate | contradiction | lia] ].
Qed.

(** X8. When the host delete raises, the admin action reports the error
    text in an error message and returns to the change list; nothing is
    reported as deleted. *)
Theorem admin_reports_host_failure :
  forall e : exn,
    existsb Trace.is_host_delete (trace run) = true ->
    Host.objects_delete host target = Raise e ->
    outcome run = Ret None
    /\ In (EvMessage MsgError "Error during deletion: <strong>{}</strong>"
             [Py.str_exn e]) (trace run)
    /\ forallb (fun ev => negb (Trace.is_success_report ev)) (trace run) = true.
Proof.
  subst target run. intros e. unfold Admin.delete_all_action. action_cases.
  all: intros Hdel; try discriminate Hdel.
  all: intros [= <-]; repeat split; cbn [In]; auto 10.
Qed.

(** X9. The log records of a call of the admin action are those of
    [log_deletion_attempt], written once the evaluation has allowed the
    call (on the first request as on the confirming one), followed by those
    of [log_deletion_success] when the host delete returned; a call without
    permission or blocked by the policy logs nothing. *)
Theorem admin_audit_trail :
  List.filter Observe.is_log (trace run)
  = if Admin.has_delete_permission modeladmin request
       && match check_deletion_safety safety target rows with
          | Ret _ => true
          | Raise _ => false
          end
    then
      (trace (log_deletion_attempt safety target rows (Admin.user request))
       ++ if bool_decide (Admin.POST request !! "post" = Some "yes")
             && (rows >? 0)%Z
          then match Host.objects_delete host target with
               | Ret (deleted_count, _) =>
                   trace (log_deletion_success safety target deleted_count
                            (Admin.user request))
               | Raise _ => []
               end
          else [])%list
    else [].
Proof.
  subst target rows run. unfold Admin.delete_all_action. action_cases.
  all: reflexivity.
Qed.

(** X10. The confirmation page is returned exactly when the user may
    delete, the evaluation allowed the call and the request is not the
    confirming one; the call then deletes nothing, and the page's
    large-deletion flag compares the count with 100 whatever the policy's
    thresholds are. *)
Theorem admin_confirmation_page_iff :
  ((exists response : Admin.Response, outcome run = Ret (Some response))
   <-> Admin.has_delete_permission modeladmin request = true
       /\ check_deletion_safety safety target rows = Ret true
       /\ Admin.POST request !! "post" <> Some "yes")
  /\ (forall (template : string) (context : Admin.Context),
        outcome run = Ret (Some (Admin.TemplateResponse template context)) ->
        Admin.object_count context = rows
        /\ Admin.is_large_deletion context = (rows >? 100)%Z
        /\ Admin.requires_confirmation context
           = requires_confirmation safety rows
        /\ existsb Trace.is_host_delete (trace run) = false).
Proof.
  subst target rows run. unfold Admin.delete_all_action. action_cases.
  all: read_tests.
  all: split;
    [ split;
      [ intros [response Hout]; first [discriminate Hout | repeat split; auto]
      | intros (Hp & Hc & Hy);
        first [discriminate | contradiction | eexists; reflexivity] ]
    | intros template context Hout;
      first [discriminate Hout | injection Hout as <- <-; repeat split] ].
Qed.

(** X11. A model of an excluded application is blocked by the admin
    action at every count, zero included, and on either request: the error
    message holds the exclusion text and nothing is deleted or logged. *)
Theorem admin_blocks_excluded_application :
  Admin.has_delete_permission modeladmin request = true ->
  enabled safety = true ->
  app_label target ∈ excluded_apps safety ->
  outcome run = Ret None
  /\ (exists template : string,
        trace run
        = [EvHostCount target; EvSafetyCheck target rows false;
           EvMessage MsgError template
             ["Deletion not allowed: App '" ++ app_label target
                ++ "' is in excluded apps list";
              Py.fmt_int (max_objects_without_confirmation safety);
              Py.fmt_int rows]]).
Proof.
  subst target rows run. intros Hperm Henabled Hexcluded.
  assert (Hcheck :
            check_deletion_safety safety (Admin.model modeladmin)
              (Host.objects_count host (Admin.model modeladmin))
            = Raise (SafetyError
                       ("Deletion not allowed: App '"
                        ++ app_label (Admin.model modeladmin)
                        ++ "' is in excluded apps list"))).
  { unfold check_deletion_safety, can_delete_model, is_enabled.
    rewrite Henabled. cbn [negb].
    now rewrite bool_decide_eq_true_2 by exact Hexcluded. }
  unfold Admin.delete_all_action. rewrite Hperm. run_effects.
  rewrite Hcheck. run_effects. split; [reflexivity |].
  eexists. reflexivity.
Qed.

End AdminPaths.

(** ** The management command, path by path *)

Lemma listing_never_deletes (tr : list Event) :
  forallb Trace.is_listing tr = true ->
  existsb Trace.is_host_delete tr = false.
Proof.
  apply listing_exists_none. intros [| | | | [] | |]; simpl; congruence.
Qed.

Lemma listing_all (p : Event -> bool) (tr : list Event) :
  (forall ev, Trace.is_listing ev = true -> p ev = true) ->
  forallb Trace.is_listing tr = true -> forallb p tr = true.
Proof. apply forallb_weaken. Qed.

Section CommandPaths.

Variables (host : Host.t) (self : Command.Command)
          (options : Command.Options.t).

Let run : M unit := Command.handle host self options.

(** X12. The command calls the host delete exactly when it resolves a
    model with rows, the run is not a dry run, the caller forced it or
    answered yes (in any letter case), and the evaluation allowed the model
    and its count. *)
Theorem command_deletes_iff :
  existsb Trace.is_host_delete (trace run) = true
  <-> exists target : Model,
        Command.resolves host self options target
        /\ Host.objects_count host target <> 0%Z
        /\ Command.Options.dry_run options = false
        /\ (Command.Options.force options = true
            \/ exists answer : string,
                 Host.stdin_line host = Some answer
                 /\ Py.lower answer = "yes")
        /\ check_deletion_safety (Command.safety self) target
             (Host.objects_count host target) = Ret true.
Proof.
  subst run. unfold Command.handle. handle_cases.
  all: read_tests.
  all: split;
    [ intros Hdel;
      first
        [ discriminate Hdel
        | rewrite (listing_never_deletes _ Hlisting) in Hdel; discriminate Hdel
        | exists model; split;
          [ split;
            [ exact Hguard
            | exists app_config, (String c name);
              repeat split; try assumption; discriminate ]
          | repeat split; eauto ] ]
    | intros (target & (Hg & ac & nm & Ha & Hn & Hne & Hm) & Hrows & Hd & Hf
              & Hc);
      first
        [ reflexivity
        | exfalso; destruct Hf as [Hf | (answer & Hanswer & Hlower)];
          congruence ] ].
Qed.

(** X13. Any answer other than yes (in any letter case) cancels: the
    command writes that the operation was cancelled and returns without
    evaluating the policy or deleting. *)
Theorem command_cancelled_by_other_answer :
  forall (target : Model) (answer : string),
    Command.resolves host self options target ->
    Host.objects_count host target <> 0%Z ->
    Command.Options.dry_run options = false ->
    Command.Options.force options = false ->
    Host.stdin_line host = Some answer ->
    Py.lower answer <> "yes" ->
    run
    = ([EvHostCount target;
        EvStdout StyleWarning
          ("Found " ++ Py.fmt_int (Host.objects_count host target) ++ " "
           ++ verbose_name_plural target ++ " to delete.");
        EvInput
          ("Are you sure you want to delete ALL "
           ++ Py.fmt_int (Host.objects_count host target) ++ " "
           ++ verbose_name_plural target
           ++ "? This cannot be undone! (yes/no): ");
        EvStdout StyleSuccess "Operation cancelled."],
       Ret tt).
Proof.
  subst run.
  intros target answer (Hg & ac & nm & Ha & Hn & Hne & Hm) Hrows Hd Hf Hanswer
    Hlower.
  apply Z.eqb_neq in Hrows. apply String.eqb_neq in Hlower.
  unfold Command.handle. rewrite Hg, Ha, Hn, Hd, Hf.
  destruct nm as [| ch nm]; [contradiction |].
  rewrite Hm. run_effects. rewrite Hrows. run_effects.
  rewrite Hanswer. run_effects. rewrite Hlower. reflexivity.
Qed.

(** X14. With [--force] the command never prompts, on any path. *)
Theorem command_force_never_prompts :
  Command.Options.force options = true ->
  forallb (fun ev => negb (Trace.is_prompt ev)) (trace run) = true.
Proof.
  subst run. intros Hforced. unfold Command.handle. rewrite Hforced.
  handle_cases.
  all: first
         [ reflexivity
         | cbn [forallb Trace.is_prompt negb andb];
           eapply listing_all; [| eassumption];
           intros [| | | | [] | |]; simpl; congruence ].
Qed.

(** X15. The command writes no log record on any path, whatever the
    policy's audit switch says: deletions made through it are not
    audited. *)
Theorem command_never_logs :
  forallb (fun ev => negb (Observe.is_log ev)) (trace run) = true.
Proof.
  subst run. unfold Command.handle. handle_cases.
  all: first
         [ reflexivity
         | cbn [forallb Observe.is_log negb andb];
           eapply listing_all; [| eassumption];
           intros [| | | | [] | |]; simpl; congruence ].
Qed.

(** X16. From the evaluation of the policy on, [handle] lets no exception
    through as it is: a call in which the policy was evaluated returns or
    raises [CommandError], whether the evaluation, the delete or the read
    of [self.verbosity] failed.  An exception of another class (such as the
    [EOFError] of the prompt) leaves [handle] only from a statement before
    the [try]: then the policy was not evaluated and nothing was deleted or
    reported as deleted. *)
Theorem command_wraps_exceptions_after_evaluation :
  (existsb Trace.is_safety_check (trace run) = true ->
   outcome run = Ret tt
   \/ exists text : string, outcome run = Raise (CommandError text))
  /\ (forall e : exn,
        outcome run = Raise e ->
        (forall text : string, e <> CommandError text) ->
        forallb (fun ev =>
                   negb (Trace.is_safety_check ev)
                   && negb (Trace.is_host_delete ev)
                   && negb (Trace.is_success_report ev))
          (trace run) = true).
Proof.
  subst run. unfold Command.handle. handle_cases.
  all: split;
    [ intros Hseen;
      first
        [ left; reflexivity
        | right; eexists; reflexivity
        | discriminate Hseen ]
    | intros e Hraised Hother;
      first
        [ discriminate Hraised
        | injection Hraised as <-; exfalso; eapply Hother; reflexivity
        | reflexivity ] ].
Qed.

(** X17. When the host delete raises (anything but a [SafetyError]), the
    command raises [CommandError] with the text of the exception and writes
    no success line. *)
Theorem command_reports_host_failure :
  forall (target : Model) (e : exn),
    Command.resolves host self options target ->
    Host.objects_delete host target = Raise e ->
    (forall text : string, e <> SafetyError text) ->
    existsb Trace.is_host_delete (trace run) = true ->
    outcome run = Raise (CommandError ("Error during deletion: " ++ Py.str_exn e))
    /\ forallb (fun ev => negb (Trace.is_success_report ev)) (trace run) = true.
Proof.
  subst run.
  intros target e (Hg & ac & nm & Ha & Hn & Hne & Hm) Hraise Hother.
  unfold Command.handle. handle_cases.
  all: intros Hdel;
    first
      [ discriminate Hdel
      | rewrite (listing_never_deletes _ Hlisting) in Hdel; discriminate Hdel
      | idtac ].
  all: assert (target = model) as -> by congruence.
  all: rewrite Hdelete in Hraise;
    first [discriminate Hraise | injection Hraise as <-].
  all: first [now destruct (Hother _ eq_refl) | split; reflexivity].
Qed.

(** X18. When the host delete returns, the command writes the success
    line with the count the host reported; it then reads [self.verbosity],
    and on a command object without that attribute the call ends in
    [CommandError] although the rows are deleted. *)
Theorem command_after_successful_delete :
  forall (target : Model) (deleted : Z) (details : list (string * Z)),
    Command.resolves host self options target ->
    Host.objects_delete host target = Ret (deleted, details) ->
    existsb Trace.is_host_delete (trace run) = true ->
    In (EvStdout StyleSuccess
          ("Successfully deleted " ++ Py.fmt_int deleted ++ " "
           ++ verbose_name_plural target ++ "."))
      (trace run)
    /\ (outcome run = Ret tt <-> Command.verbosity self <> None)
    /\ (Command.verbosity self = None ->
        outcome run
        = Raise (CommandError
                   "Error during deletion: 'Command' object has no attribute 'verbosity'")).
Proof.
  subst run.
  intros target deleted details (Hg & ac & nm & Ha & Hn & Hne & Hm) Hreturned.
  unfold Command.handle. handle_cases.
  all: intros Hdel;
    first
      [ discriminate Hdel
      | rewrite (listing_never_deletes _ Hlisting) in Hdel; discriminate Hdel
      | idtac ].
  all: assert (target = model) as -> by congruence.
  all: rewrite Hdelete in Hreturned;
    first [discriminate Hreturned | injection Hreturned as <- <-].
  all: split; [cbn [In]; auto 10 |].
  all: split;
    [ split; [intros Hout | intros Hset]; congruence
    | first [congruence | intros _; reflexivity] ].
Qed.

End CommandPaths.

(** ** Listing, breakdown and the environment guard *)
Section ListingAndGuard.

(** X19. Listing an application counts every model of the registry once,
    in order, and writes the header and one line per model with its count;
    it makes no other call and returns.  For an application without models
    it writes the header alone: the test [if not models] is made on a
    generator, so the line [No models found] is never written.  [handle]
    does exactly this when no model name is given (or an empty one). *)
Theorem list_models_counts_every_model :
  forall (host : Host.t) (app_config : Host.AppConfig),
    Observe.counted (trace (Command._list_models host app_config))
    = Host.get_models app_config
    /\ Observe.written (trace (Command._list_models host app_config))
       = (Plain,
          "Available models in " ++ Py.dq ++ Host.config_label app_config
            ++ Py.dq ++ ":")
         :: map (fun model =>
                   (Plain,
                    "  - " ++ __name__ model ++ " ("
                      ++ Py.fmt_int (Host.objects_count host model)
                      ++ " objects)"))
              (Host.get_models app_config)
    /\ forallb Trace.is_listing (trace (Command._list_models host app_config))
       = true
    /\ outcome (Command._list_models host app_config) = Ret tt
    /\ (forall (self : Command.Command) (options : Command.Options.t),
          negb (Command._is_safe_environment self)
          && negb (Command.Options.production_override options) = false ->
          Host.get_app_config host (Command.Options.app_label options)
          = Some app_config ->
          Command.Options.model_name options = None
          \/ Command.Options.model_name options = Some EmptyString ->
          Command.handle host self options
          = Command._list_models host app_config).
Proof.
  intros host app_config.
  destruct (list_models_listing host app_config) as [Hlisting Hreturns].
  split; [| split; [| split; [exact Hlisting | split; [exact Hreturns |]]]].
  - unfold Command._list_models, Command.write, Host.generator_truthy.
    cbn [negb].
    rewrite bind_emit. cbn [trace fst Observe.counted flat_map app].
    generalize (Host.get_models app_config). intros models.
    induction models as [| model models IH]; [reflexivity |].
    cbn [fold_right]. rewrite trace_bind, count_run.
    cbn [trace outcome fst snd]. rewrite bind_emit.
    cbn [trace fst app flat_map]. now rewrite IH.
  - unfold Command._list_models, Command.write, Host.generator_truthy.
    cbn [negb].
    rewrite bind_emit. cbn [trace fst Observe.written flat_map app].
    f_equal.
    generalize (Host.get_models app_config). intros models.
    induction models as [| model models IH]; [reflexivity |].
    cbn [fold_right]. rewrite trace_bind, count_run.
    cbn [trace outcome fst snd]. rewrite bind_emit.
    cbn [trace fst app flat_map map]. now rewrite IH.
  - intros self options Hguard Happ Hname.
    unfold Command.handle. rewrite Hguard, Happ.
    destruct Hname as [-> | ->]; reflexivity.
Qed.

(** X20. The verbose breakdown writes one plain line for every entry of the
    host's breakdown with a positive count, in the order of the entries,
    and nothing else. *)
Theorem write_details_lists_positive_entries :
  forall deleted_details : list (string * Z),
    trace (Command.write_details deleted_details)
    = map (fun '(model_name, count) =>
             EvStdout Plain ("  - " ++ model_name ++ ": " ++ Py.fmt_int count))
        (List.filter (fun '(_, count) => (count >? 0)%Z) deleted_details)
    /\ outcome (Command.write_details deleted_details) = Ret tt.
Proof.
  intros deleted_details. unfold Command.write_details, Command.write.
  induction deleted_details as [| [model_name count] rest [IHt IHo]];
    [split; reflexivity |].
  cbn [fold_right List.filter]. destruct (count >? 0)%Z; [| auto].
  rewrite bind_emit. cbn [trace outcome fst snd map]. now rewrite IHt.
Qed.

Lemma startswith_iff (s p : string) :
  Py.startswith s p = true <-> exists rest : string, s = p ++ rest.
Proof.
  revert s. induction p as [| ch p IH]; intros s.
  - split; [intros _; now exists s | reflexivity].
  - destruct s as [| d s]; cbn [Py.startswith].
    + split; [discriminate | intros [rest Hrest]; discriminate Hrest].
    + rewrite andb_true_iff, Ascii.eqb_eq, IH. split.
      * intros [-> [rest ->]]. now exists rest.
      * intros [rest Hrest].
        change (String d s = String ch (p ++ rest)) in Hrest.
        injection Hrest as -> ->. split; [reflexivity | now exists rest].
Qed.

Lemma contains_iff (needle haystack : string) :
  Py.contains needle haystack = true
  <-> exists before after : string, haystack = before ++ needle ++ after.
Proof.
  split.
  - induction haystack as [| ch haystack IH]; cbn [Py.contains];
      intros [Hstart | Hlater]%orb_prop.
    + apply startswith_iff in Hstart as [rest ->]. now exists EmptyString, rest.
    + discriminate Hlater.
    + apply startswith_iff in Hstart as [rest Hrest].
      exists EmptyString, rest. exact Hrest.
    + destruct (IH Hlater) as (before & after & ->).
      now exists (String ch before), after.
  - intros (before & after & ->).
    induction before as [| ch before IH].
    + change (EmptyString ++ needle ++ after) with (needle ++ after).
      destruct (needle ++ after) eqn:Happ; cbn [Py.contains];
        apply orb_true_iff; left; apply startswith_iff; rewrite <- Happ;
        now exists after.
    + change (String ch before ++ needle ++ after)
        with (String ch (before ++ needle ++ after)).
      cbn [Py.contains]. rewrite IH. apply orb_true_r.
Qed.

(** X21. [_is_safe_environment] answers true exactly when [DEBUG] is not
    false, [DJANGO_ENV] is neither [production] nor [prod] in any letter
    case, and the lower-cased name of the default database does not hold
    [prod] anywhere (which covers [production]). *)
Theorem is_safe_environment_iff :
  forall self : Command.Command,
    Command._is_safe_environment self = true
    <-> DEBUG (Command.settings self) <> Some false
        /\ (Py.lower (Py.get (Command.environ self) "DJANGO_ENV" EmptyString)
            ∉ ["production"; "prod"])
        /\ ~ (exists before after : string,
                Py.lower
                  (Py.get
                     (default ∅ (DATABASES (Command.settings self) !! "default"))
                     "NAME" EmptyString)
                = before ++ "prod" ++ after).
Proof.
  intros self. unfold Command._is_safe_environment, Py.in_list, Py.any.
  set (env := Py.lower (Py.get (Command.environ self) "DJANGO_ENV" EmptyString)).
  set (db := Py.lower
               (Py.get
                  (default ∅ (DATABASES (Command.settings self) !! "default"))
                  "NAME" EmptyString)).
  assert (Hdb : existsb (fun indicator => Py.contains indicator db)
                  ["prod"; "production"] = true
                <-> exists before after : string, db = before ++ "prod" ++ after).
  { cbn [existsb]. rewrite orb_false_r, orb_true_iff, !contains_iff. split.
    - intros [Hprod | (before & after & ->)]; [exact Hprod |].
      exists before, ("uction" ++ after). reflexivity.
    - intros Hprod. now left. }
  destruct (DEBUG (Command.settings self)) as [[] |]; cbn [negb].
  2: { split; [discriminate | intros [Hdebug _]; now destruct Hdebug]. }
  all: case_bool_decide as Henv.
  all: try (split; [discriminate | intros (_ & Hnot & _); contradiction]).
  all: destruct (existsb _ _) eqn:Hany.
  all: split; try discriminate.
  all: try (intros (_ & _ & Hnone); destruct Hnone; now apply Hdb).
  all: intros _; repeat split; try discriminate; try assumption.
  all: intros Hprod; apply Hdb in Hprod; discriminate Hprod.
Qed.

(** X22. The settings and the environment of the process are read by the
    guard only: two command objects with the same policy and verbosity
    that both pass the guard run alike; a command that does not pass
    raises before it looks anything up. *)
Theorem command_guard_is_the_only_environment_test :
  forall (host : Host.t) (self other : Command.Command)
         (options : Command.Options.t),
    Command.safety self = Command.safety other ->
    Command.verbosity self = Command.verbosity other ->
    (negb (Command._is_safe_environment self)
     && negb (Command.Options.production_override options) = false ->
     negb (Command._is_safe_environment other)
     && negb (Command.Options.production_override options) = false ->
     Command.handle host self options = Command.handle host other options)
    /\ (negb (Command._is_safe_environment self)
        && negb (Command.Options.production_override options) = true ->
        exists text : string,
          Command.handle host self options = ([], Raise (CommandError text))).
Proof.
  intros host self other options Hsafety Hverbosity. split.
  - intros Hself Hother. unfold Command.handle.
    rewrite Hself, Hother, Hsafety, Hverbosity. reflexivity.
  - intros Hself. unfold Command.handle. rewrite Hself.
    eexists. reflexivity.
Qed.

End ListingAndGuard.

(** ** cli.py: finding the project *)
Section FindManagePy.

Variable os : Cli.Os.

Let has_manage_py (directory : list string) : bool :=
  Cli.path_exists os (directory ++ ["manage.py"]).

Lemma parent_fixed_iter (p : list string) (k : nat) :
  Cli.parent p = p -> Nat.iter k Cli.parent p = p.
Proof.
  intros Hroot. induction k as [| k IH]; [reflexivity |].
  rewrite Nat.iter_succ, IH. exact Hroot.
Qed.

Lemma find_manage_py_some (fuel : nat) (p d : list string) :
  Cli.find_manage_py os fuel p = Some d
  <-> exists k : nat,
        (k < fuel)%nat
        /\ d = Nat.iter k Cli.parent p
        /\ has_manage_py d = true
        /\ forall j : nat, (j < k)%nat -> has_manage_py (Nat.iter j Cli.parent p) = false.
Proof.
  subst has_manage_py. revert p.
  induction fuel as [| fuel IH]; intros p; cbn [Cli.find_manage_py].
  - split; [discriminate | intros (k & Hk & _); lia].
  - destruct (Cli.path_exists os (p ++ ["manage.py"])) eqn:Hhere.
    + split.
      * intros [= <-]. exists 0%nat. repeat split; [lia | exact Hhere | intros j Hj; lia].
      * intros (k & Hk & -> & Hd & Hbefore).
        destruct k as [| k]; [reflexivity |].
        specialize (Hbefore 0%nat ltac:(lia)). simpl in Hbefore. congruence.
    + case_bool_decide as Hroot.
      * split; [discriminate |].
        intros (k & Hk & -> & Hd & _).
        rewrite (parent_fixed_iter p k Hroot) in Hd. congruence.
      * rewrite IH. split.
        -- intros (k & Hk & -> & Hd & Hbefore).
           exists (S k). rewrite Nat.iter_succ_r.
           repeat split; [lia | exact Hd |].
           intros [| j] Hj; [exact Hhere |].
           rewrite Nat.iter_succ_r. apply Hbefore. lia.
        -- intros (k & Hk & -> & Hd & Hbefore).
           destruct k as [| k]; [simpl in Hd; congruence |].
           exists k. rewrite Nat.iter_succ_r in Hd.
           rewrite Nat.iter_succ_r.
           repeat split; [lia | exact Hd |].
           intros j Hj. specialize (Hbefore (S j) ltac:(lia)).
           now rewrite Nat.iter_succ_r in Hbefore.
Qed.

Lemma find_manage_py_none (fuel : nat) (p : list string) :
  Cli.find_manage_py os fuel p = None
  <-> forall k : nat, (k < fuel)%nat -> has_manage_py (Nat.iter k Cli.parent p) = false.
Proof.
  subst has_manage_py. revert p.
  induction fuel as [| fuel IH]; intros p; cbn [Cli.find_manage_py].
  - split; [intros _ k Hk; lia | reflexivity].
  - destruct (Cli.path_exists os (p ++ ["manage.py"])) eqn:Hhere.
    + split; [discriminate |].
      intros Hnone. specialize (Hnone 0%nat ltac:(lia)). simpl in Hnone.
      congruence.
    + case_bool_decide as Hroot.
      * split; [| reflexivity]. intros _ k Hk.
        now rewrite (parent_fixed_iter p k Hroot).
      * rewrite IH. split.
        -- intros Hnone [| k] Hk; [exact Hhere |].
           rewrite Nat.iter_succ_r. apply Hnone. lia.
        -- intros Hnone k Hk. specialize (Hnone (S k) ltac:(lia)).
           now rewrite Nat.iter_succ_r in Hnone.
Qed.

(** X23. [_find_manage_py_directory] returns the nearest of the current
    directory and its first three ancestors that holds a [manage.py], and
    [None] exactly when none of the four does (the root counts as its own
    parent, so a search that reaches the root stops there). *)
Theorem find_manage_py_directory_is_nearest :
  (forall d : list string,
      Cli._find_manage_py_directory os = Some d
      <-> exists k : nat,
            (k < 4)%nat
            /\ d = Nat.iter k Cli.parent (Cli.cwd os)
            /\ Cli.path_exists os (d ++ ["manage.py"]) = true
            /\ forall j : nat,
                 (j < k)%nat ->
                 Cli.path_exists os
                   (Nat.iter j Cli.parent (Cli.cwd os) ++ ["manage.py"])
                 = false)
  /\ (Cli._find_manage_py_directory os = None
      <-> forall k : nat,
            (k < 4)%nat ->
            Cli.path_exists os
              (Nat.iter k Cli.parent (Cli.cwd os) ++ ["manage.py"])
            = false).
Proof.
  split.
  - intros d. apply find_manage_py_some.
  - apply find_manage_py_none.
Qed.

End FindManagePy.

(** ** cli.py: finding the settings and setting up *)

Ltac run_prog :=
  cbv [Prog.bind Prog.get Prog.put Prog.ret Prog.fail Prog.emit
       Prog.try_except Prog.events Prog.final Prog.value Cli.insert_path
       Cli.echo Cli.setdefault fst snd];
  cbn [app Cli.environ Cli.sys_path].

Section Settings.

Variable os : Cli.Os.

(** The process once the current directory is on the import path. *)
Let with_cwd (proc : Cli.Proc) : Cli.Proc :=
  {| Cli.environ := Cli.environ proc;
     Cli.sys_path :=
       if Py.in_list (Cli.str_path (Cli.cwd os)) (Cli.sys_path proc)
       then Cli.sys_path proc
       else Cli.str_path (Cli.cwd os) :: Cli.sys_path proc |}.

(** The import system does not find [c] on [path], and says so with
    [None] or with one of the exceptions that the test catches. *)
Let not_found (path : list string) (c : string) : Prop :=
  Cli.find_spec os path c = Cli.SpecMissing
  \/ Cli.find_spec os path c = Cli.SpecImportError.

(** What it means for [m] to be the first candidate that is found on
    [path]. *)
Let first_found (path candidates : list string) (m : string) : Prop :=
  exists before after : list string,
    candidates = (before ++ m :: after)%list
    /\ Cli.find_spec os path m = Cli.SpecFound
    /\ forall c : string, In c before -> not_found path c.

Lemma with_cwd_settled (proc : Cli.Proc) :
  In (Cli.str_path (Cli.cwd os)) (Cli.sys_path proc) -> with_cwd proc = proc.
Proof.
  intros Hin. unfold with_cwd, Py.in_list. destruct proc as [env path].
  cbn [Cli.environ Cli.sys_path] in *.
  rewrite bool_decide_eq_true_2; [reflexivity | now apply list_elem_of_In].
Qed.

Lemma with_cwd_on_path (proc : Cli.Proc) :
  In (Cli.str_path (Cli.cwd os)) (Cli.sys_path (with_cwd proc)).
Proof.
  unfold with_cwd, Py.in_list. cbn [Cli.sys_path].
  case_bool_decide as Hin; [now apply list_elem_of_In | now left].
Qed.

(** One test of a module name: the current directory is put on the path
    unless it is there, nothing is written, and the answer is the one of
    [find_spec] on the path so obtained. *)
Lemma test_settings_module_run (module_name : string) (proc : Cli.Proc) :
  Cli._test_settings_module os module_name proc
  = ([], with_cwd proc,
     match Cli.find_spec os (Cli.sys_path (with_cwd proc)) module_name with
     | Cli.SpecFound => Prog.Done true
     | Cli.SpecMissing | Cli.SpecImportError => Prog.Done false
     | Cli.SpecOtherError text => Prog.Failed (Cli.OtherException text)
     end).
Proof.
  unfold Cli._test_settings_module, with_cwd, Py.in_list.
  destruct proc as [env path].
  run_prog. case_bool_decide as Hin; cbn [negb]; run_prog.
  - now destruct (Cli.find_spec os path module_name).
  - now destruct (Cli.find_spec os _ module_name).
Qed.

(** The loop over the candidates, once the current directory is on the
    path: the process stays as it is, and the loop returns the first
    candidate that is found, [None] when none is. *)
Lemma first_importable_settled (candidates : list string) (proc : Cli.Proc) :
  In (Cli.str_path (Cli.cwd os)) (Cli.sys_path proc) ->
  exists result : Prog.result Cli.exn (option string),
    Cli.first_importable os candidates proc = ([], proc, result)
    /\ (forall m : string,
          result = Prog.Done (Some m)
          <-> first_found (Cli.sys_path proc) candidates m)
    /\ (result = Prog.Done None
        <-> forall c : string,
              In c candidates -> not_found (Cli.sys_path proc) c).
Proof.
  intros Hcwd. induction candidates as [| candidate others IH].
  - exists (Prog.Done None). split; [reflexivity |]. split.
    + intros m. split; [discriminate |].
      intros (before & after & Hsplit & _). now destruct before.
    + split; [intros _ c [] | reflexivity].
  - cbn [Cli.first_importable]. unfold Prog.bind at 1.
    rewrite test_settings_module_run, (with_cwd_settled proc Hcwd).
    destruct IH as (result & Hrest & Hsome & Hnone).
    destruct (Cli.find_spec os (Cli.sys_path proc) candidate) eqn:Hspec.
    + exists (Prog.Done (Some candidate)). split; [reflexivity |]. split.
      * intros m. split.
        -- intros [= <-]. exists [], others. repeat split; auto.
           intros c [].
        -- intros (before & after & Hsplit & Hfound & Hbefore).
           destruct before as [| first before]; injection Hsplit as <- _;
             [reflexivity |].
           destruct (Hbefore candidate (or_introl eq_refl)); congruence.
      * split; [discriminate |]. intros Hall.
        destruct (Hall candidate (or_introl eq_refl)); congruence.
    + rewrite Hrest. exists result. split; [reflexivity |]. split.
      * intros m. rewrite Hsome. split.
        -- intros (before & after & -> & Hfound & Hbefore).
           exists (candidate :: before), after. repeat split; auto.
           intros c [<- | Hc]; [now left | now apply Hbefore].
        -- intros (before & after & Hsplit & Hfound & Hbefore).
           destruct before as [| first before]; injection Hsplit as <- ->;
             [congruence |].
           exists before, after. repeat split; auto.
           intros c Hc. apply Hbefore. now right.
      * rewrite Hnone. split.
        -- intros Hall c [<- | Hc]; [now left | now apply Hall].
        -- intros Hall c Hc. apply Hall. now right.
    + rewrite Hrest. exists result. split; [reflexivity |]. split.
      * intros m. rewrite Hsome. split.
        -- intros (before & after & -> & Hfound & Hbefore).
           exists (candidate :: before), after. repeat split; auto.
           intros c [<- | Hc]; [now right | now apply Hbefore].
        -- intros (before & after & Hsplit & Hfound & Hbefore).
           destruct before as [| first before]; injection Hsplit as <- ->;
             [congruence |].
           exists before, after. repeat split; auto.
           intros c Hc. apply Hbefore. now right.
      * rewrite Hnone. split.
        -- intros Hall c [<- | Hc]; [now right | now apply Hall].
        -- intros Hall c Hc. apply Hall. now right.
    + exists (Prog.Failed (Cli.OtherException text)).
      split; [reflexivity |]. split.
      * intros m. split; [discriminate |].
        intros (before & after & Hsplit & Hfound & Hbefore).
        destruct before as [| first before]; injection Hsplit as <- _;
          [congruence |].
        destruct (Hbefore candidate (or_introl eq_refl)); congruence.
      * split; [discriminate |]. intros Hall.
        destruct (Hall candidate (or_introl eq_refl)); congruence.
Qed.

(** The loop over a list that is not empty, from any process: the first
    test puts the current directory on the path. *)
Lemma first_importable_run (candidate : string) (others : list string)
    (proc : Cli.Proc) :
  exists result : Prog.result Cli.exn (option string),
    Cli.first_importable os (candidate :: others) proc
    = ([], with_cwd proc, result)
    /\ (forall m : string,
          result = Prog.Done (Some m)
          <-> first_found (Cli.sys_path (with_cwd proc))
                (candidate :: others) m)
    /\ (result = Prog.Done None
        <-> forall c : string,
              In c (candidate :: others) ->
              not_found (Cli.sys_path (with_cwd proc)) c).
Proof.
  destruct (first_importable_settled (candidate :: others) (with_cwd proc)
              (with_cwd_on_path proc))
    as (result & Hrun & Hsome & Hnone).
  exists result. split; [| now split].
  rewrite <- Hrun. cbn [Cli.first_importable]. unfold Prog.bind.
  rewrite !test_settings_module_run.
  now rewrite (with_cwd_settled _ (with_cwd_on_path proc)).
Qed.

(** X24. [_detect_django_settings] writes nothing and leaves the
    environment as it is.  A non-empty [DJANGO_SETTINGS_MODULE] is returned
    as it stands, without a look at the file system; otherwise the module
    named in the nearest [manage.py] is returned; otherwise the current
    directory is put on the import path and the six candidates are tried in
    the order of the list: the result is the first candidate that the
    import system finds, and it is [None] exactly when it finds none of
    them. *)
Theorem detect_settings_precedence :
  forall proc : Cli.Proc,
    exists (proc1 : Cli.Proc) (result : Prog.result Cli.exn (option string)),
      Cli._detect_django_settings os proc = ([], proc1, result)
      /\ Cli.environ proc1 = Cli.environ proc
      /\ (forall (c : ascii) (rest : string),
            Cli.environ proc !! "DJANGO_SETTINGS_MODULE"
            = Some (String c rest) ->
            proc1 = proc /\ result = Prog.Done (Some (String c rest)))
      /\ (Cli.falsy (Cli.environ proc !! "DJANGO_SETTINGS_MODULE") = true ->
          forall m : string,
            Cli.settings_from_manage_py os = Some m ->
            proc1 = proc /\ result = Prog.Done (Some m))
      /\ (Cli.falsy (Cli.environ proc !! "DJANGO_SETTINGS_MODULE") = true ->
          Cli.settings_from_manage_py os = None ->
          proc1 = with_cwd proc
          /\ (forall m : string,
                result = Prog.Done (Some m)
                <-> first_found (Cli.sys_path proc1) (Cli.candidates os) m)
          /\ (result = Prog.Done None
              <-> forall c : string,
                    In c (Cli.candidates os) ->
                    not_found (Cli.sys_path proc1) c)).
Proof.
  intros proc. unfold Cli._detect_django_settings. run_prog.
  destruct (Cli.environ proc !! "DJANGO_SETTINGS_MODULE") as [[| c rest] |]
    eqn:Henv.
  2: { exists proc, (Prog.Done (Some (String c rest))).
       split; [reflexivity |]. split; [reflexivity |].
       split; [now intros c' rest' [= <- <-] |].
       split; discriminate. }
  all: destruct (Cli.settings_from_manage_py os) as [found |] eqn:Hscan.
  1, 3: exists proc, (Prog.Done (Some found));
    (split; [reflexivity |]); (split; [reflexivity |]);
    (split; [discriminate |]);
    (split; [now intros _ m [= <-] |]);
    discriminate.
  all: destruct (first_importable_run "testsite.settings"
                   [Cli.name (Cli.cwd os) ++ ".settings"; "config.settings";
                    "settings.settings"; "core.settings"; "settings"] proc)
         as (result & Hrun & Hsome & Hnone).
  all: change ["testsite.settings"; Cli.name (Cli.cwd os) ++ ".settings";
               "config.settings"; "settings.settings"; "core.settings";
               "settings"]
         with (Cli.candidates os) in Hrun, Hsome, Hnone.
  all: exists (with_cwd proc), result.
  all: split; [rewrite Hrun; reflexivity |].
  all: split; [reflexivity |].
  all: split; [discriminate |].
  all: split; [discriminate |].
  all: intros _ _; split; [reflexivity | split; assumption].
Qed.

End Settings.

Section SetUp.

Variable os : Cli.Os.

Lemma detect_settings_run (proc : Cli.Proc) :
  exists (proc1 : Cli.Proc) (result : Prog.result Cli.exn (option string)),
    Cli._detect_django_settings os proc = ([], proc1, result)
    /\ Cli.environ proc1 = Cli.environ proc.
Proof.
  destruct (detect_settings_precedence os proc)
    as (proc1 & result & Hrun & Henv & _).
  now exists proc1, result.
Qed.

Lemma in_list_In (x : string) (l : list string) :
  Py.in_list x l = true -> In x l.
Proof.
  unfold Py.in_list. intros Hin%bool_decide_eq_true. now apply list_elem_of_In.
Qed.

Lemma falsy_false (x : option string) :
  Cli.falsy x = false ->
  exists (c : ascii) (rest : string), x = Some (String c rest).
Proof. destruct x as [[| c rest] |]; try discriminate. eauto. Qed.

(** One step of [_setup_django] in the hypothesis [H] that describes the
    run: split on the next test it makes. *)
Ltac setup_norm H :=
  cbv [Prog.bind Prog.get Prog.put Prog.ret Prog.fail Prog.emit Cli.insert_path
       Cli.echo Cli.setdefault negb andb] in H;
  cbn [app Cli.environ Cli.sys_path] in H.

Ltac setup_step H :=
  match type of H with
  | context [Cli.falsy ?x] => destruct (Cli.falsy x) eqn:?
  | context [Cli._detect_django_settings os ?p] =>
      let proc1 := fresh "detected_in" in
      let result := fresh "detected" in
      let Hd := fresh "Hdetect" in
      let Henv := fresh "Hdetected_env" in
      destruct (detect_settings_run p) as (proc1 & result & Hd & Henv);
      rewrite Hd in H
  | context [match ?d with Prog.Done _ => _ | Prog.Failed _ => _ end] =>
      is_var d; destruct d
  | context [if ?c then _ else _] => is_var c; destruct c
  | context [Py.in_list ?x ?l] => destruct (Py.in_list x l) eqn:?
  | context [Cli._find_manage_py_directory os] =>
      destruct (Cli._find_manage_py_directory os) eqn:?
  | context [String.eqb ?a ?b] => destruct (String.eqb a b) eqn:?
  | context [Cli.environ ?p !! ?k] => destruct (Cli.environ p !! k) eqn:?
  | context [Cli.django_setup os ?p] => destruct (Cli.django_setup os p) eqn:?
  end.

(** X25. When [_setup_django] returns, a [DJANGO_SETTINGS_MODULE] that
    was in the environment is still there unchanged (a [--settings] option
    does not replace it); if there was none, it is now the module passed
    in, or else, when none was passed, the module that
    [_detect_django_settings] returned in the process as it was; the
    current directory is on the import path, and [django.setup()] succeeded
    in the process as it is left. *)
Theorem setup_keeps_environment_settings_module :
  forall (settings_module : option string) (verbose : bool)
         (proc proc' : Cli.Proc) (tr : list Cli.Event),
    Cli._setup_django os settings_module verbose proc
    = (tr, proc', Prog.Done tt) ->
    (forall old : string,
        Cli.environ proc !! "DJANGO_SETTINGS_MODULE" = Some old ->
        Cli.environ proc' = Cli.environ proc)
    /\ (Cli.environ proc !! "DJANGO_SETTINGS_MODULE" = None ->
        exists chosen : string,
          Cli.environ proc'
          = <["DJANGO_SETTINGS_MODULE" := chosen]> (Cli.environ proc)
          /\ chosen <> EmptyString
          /\ (Cli.falsy settings_module = false ->
              settings_module = Some chosen)
          /\ (Cli.falsy settings_module = true ->
              Prog.value (Cli._detect_django_settings os proc)
              = Prog.Done (Some chosen)))
    /\ In (Cli.str_path (Cli.cwd os)) (Cli.sys_path proc')
    /\ Cli.django_setup os proc' = None.
Proof.
  intros settings_module verbose proc proc' tr Hrun.
  unfold Cli._setup_django in Hrun.
  repeat (setup_norm Hrun; setup_step Hrun).
  all: setup_norm Hrun.
  all: try discriminate Hrun.
  all: injection Hrun as <- <-; cbn [Cli.environ Cli.sys_path].
  all: try rewrite Hdetected_env in *.
  all: repeat match goal with
              | H : Cli.falsy _ = false |- _ =>
                  apply falsy_false in H as (? & ? & ->)
              | H : Py.in_list _ _ = true |- _ => apply in_list_In in H
              end.
  all: cbn [default] in *.
  all: split; [intros old Hold; congruence |].
  all: split;
    [ intros Hnone;
      first
        [ congruence
        | eexists; split;
          [ reflexivity
          | split;
            [ unfold id; discriminate
            | split;
              [ intros Hgiven; first [discriminate Hgiven | reflexivity]
              | intros Hdetecting;
                first
                  [ discriminate Hdetecting
                  | rewrite Hdetect; reflexivity ] ] ] ] ]
    | split; [cbn [In]; auto | assumption] ].
Qed.

(** Set-up writes lines of its own only. *)
Lemma setup_only_echoes (settings_module : option string) (verbose : bool)
    (proc proc' : Cli.Proc) (tr : list Cli.Event)
    (result : Prog.result Cli.exn unit) :
  Cli._setup_django os settings_module verbose proc = (tr, proc', result) ->
  forallb (fun ev => negb (Cli.is_ran ev)) tr = true.
Proof.
  intros Hrun. unfold Cli._setup_django in Hrun.
  repeat (setup_norm Hrun; setup_step Hrun).
  all: setup_norm Hrun.
  all: injection Hrun as <- _ _; reflexivity.
Qed.

End SetUp.

(** ** cli.py: the delete command *)
Section DeleteCommand.

Variables (os : Cli.Os) (host : Host.t).

(** X26. The [delete] entry point ends with status 0 exactly when set-up
    succeeded and the management command returned; otherwise the status is
    1 and the last thing written is [Error: ] with the text of the
    exception, on stderr.  When set-up fails the management command is not
    run at all. *)
Theorem delete_exit_status :
  forall (app_label : string) (model_name : option string)
         (force dry_run production_override : bool)
         (settings : option string) (verbose : bool)
         (proc proc' : Cli.Proc) (tr : list Cli.Event) (status : Z),
    Cli.delete os host app_label model_name force dry_run production_override
      settings verbose proc
    = (tr, proc', status) ->
    let setup := Cli._setup_django os settings verbose proc in
    let command :=
      Cli._run_delete_command host (Cli.command_in os (Prog.final setup))
        app_label model_name force dry_run production_override in
    (status = 0%Z
     <-> Prog.value setup = Prog.Done tt /\ outcome command = Ret tt)
    /\ (status <> 0%Z ->
        status = 1%Z
        /\ exists (before : list Cli.Event) (text : string),
             tr = (before ++ [Cli.Echo true ("Error: " ++ text)])%list
             /\ ((exists e : Cli.exn,
                    Prog.value setup = Prog.Failed e /\ text = Cli.str_exn e)
                 \/ exists e : exn,
                      outcome command = Raise e /\ text = Py.str_exn e))
    /\ (Prog.value setup <> Prog.Done tt ->
        forallb (fun ev => negb (Cli.is_ran ev)) tr = true
        /\ tr = (Prog.events setup
                 ++ [Cli.Echo true
                       ("Error: "
                        ++ match Prog.value setup with
                           | Prog.Failed e => Cli.str_exn e
                           | Prog.Done _ => EmptyString
                           end)])%list).
Proof.
  intros app_label model_name force dry_run production_override settings
    verbose proc proc' tr status.
  unfold Cli.delete, Prog.bind, Cli.call_command.
  cbv [Prog.final Prog.value Prog.events].
  destruct (Cli._setup_django os settings verbose proc)
    as [[setup_tr setup_proc] [[] | e]] eqn:Hsetup; cbn [fst snd].
  - destruct (Cli._run_delete_command host (Cli.command_in os setup_proc)
                app_label model_name force dry_run production_override)
      as [command_tr [[] | e]] eqn:Hcommand; cbn [outcome snd].
    + intros [= <- <- <-]. split; [tauto |]. split; [congruence |].
      intros Hnot. now destruct Hnot.
    + intros [= <- <- <-].
      split; [split; [discriminate | intros [_ Hret]; discriminate Hret] |].
      split.
      * intros _. split; [reflexivity |].
        exists (setup_tr ++ map Cli.Ran command_tr)%list, (Py.str_exn e).
        rewrite <- app_assoc. split; [reflexivity |]. right. eauto.
      * intros Hnot. now destruct Hnot.
  - intros [= <- <- <-].
    split; [split; [discriminate | intros [Hdone _]; discriminate Hdone] |].
    split.
    + intros _. split; [reflexivity |].
      exists setup_tr, (Cli.str_exn e). split; [reflexivity |]. left. eauto.
    + intros _. split; [| reflexivity].
      rewrite forallb_app. cbn [forallb Cli.is_ran negb andb].
      rewrite andb_true_r. exact (setup_only_echoes os _ _ _ _ _ _ Hsetup).
Qed.

End DeleteCommand.

(** ** publish.py *)

Ltac publish_norm :=
  cbv [Publish.run_main Publish.main Publish.check_requirements
       Publish.find_missing Publish.clean_build Publish.remove_all
       Publish.build_package Publish.check_package Publish.upload_to_testpypi
       Publish.upload_to_pypi Publish.run_command Publish.input Publish.print
       Prog.bind Prog.ret Prog.fail Prog.emit Prog.events Prog.value
       Publish.join_comma String.append Py.any existsb id negb andb orb fst
       snd];
  cbn [app].

(** One step of [main]: split on the next test it makes, in the order of
    the program. *)
Ltac publish_step :=
  match goal with
  | |- context [Publish.test ?a] => destruct (Publish.test a) eqn:Htest
  | |- context [Publish.prod ?a] => destruct (Publish.prod a) eqn:Hprod
  | |- context [Publish.check ?a] => destruct (Publish.check a) eqn:Hcheck_flag
  | |- context [Publish.pyproject_toml_exists ?w] =>
      destruct (Publish.pyproject_toml_exists w) eqn:Hpyproject
  | |- context [(Publish.returncode ?w "which twine" =? 0)%Z] =>
      destruct (Publish.returncode w "which twine" =? 0)%Z eqn:Htwine
  | |- context [(Publish.returncode ?w "which build" =? 0)%Z] =>
      destruct (Publish.returncode w "which build" =? 0)%Z eqn:Hbuild_tool
  | |- context [(Publish.returncode ?w "python -m build" =? 0)%Z] =>
      destruct (Publish.returncode w "python -m build" =? 0)%Z eqn:Hbuilt
  | |- context [(Publish.returncode ?w "twine check dist/*" =? 0)%Z] =>
      destruct (Publish.returncode w "twine check dist/*" =? 0)%Z eqn:Hchecked
  | |- context [(Publish.returncode ?w
                   "twine upload --repository testpypi dist/*" =? 0)%Z] =>
      destruct (Publish.returncode w
                  "twine upload --repository testpypi dist/*" =? 0)%Z
        eqn:Htestpypi
  | |- context [Publish.stdin_line ?w] =>
      destruct (Publish.stdin_line w) as [line |] eqn:Hline
  | |- context [String.eqb (Py.lower ?l) ?y] =>
      destruct (String.eqb (Py.lower l) y) eqn:Hyes
  | |- context [(Publish.returncode ?w "twine upload dist/*" =? 0)%Z] =>
      destruct (Publish.returncode w "twine upload dist/*" =? 0)%Z eqn:Hpypi
  end.

Ltac publish_cases := repeat (publish_norm; publish_step); publish_norm.

Section PublishRuns.

Variables (world : Publish.World) (args : Publish.Args).

Let run := Publish.run_main world args.

(** X27. [run_command] with [check=True] raises on a non-zero status, so
    [main] never reaches its own failure messages for the build, the check
    and the uploads: it returns 1 only before anything is built, and a
    failing build ends in [CalledProcessError]. *)
Theorem publish_failures_raise :
  Publish.printed "Build failed!" (Prog.events run) = false
  /\ Publish.printed "Package check failed!" (Prog.events run) = false
  /\ Publish.printed "❌ Upload to TestPyPI failed!" (Prog.events run) = false
  /\ Publish.printed "❌ Upload to PyPI failed!" (Prog.events run) = false
  /\ (Prog.value run = Prog.Done 1%Z ->
      Publish.ran "python -m build" (Prog.events run) = false)
  /\ (Publish.ran "python -m build" (Prog.events run) = true ->
      Publish.returncode world "python -m build" <> 0%Z ->
      Prog.value run
      = Prog.Failed
          (Publish.CalledProcessError "python -m build"
             (Publish.returncode world "python -m build"))).
Proof.
  subst run. publish_cases.
  all: read_tests.
  all: repeat split; try (vm_compute; reflexivity).
  all: try (intros Hone; first [discriminate Hone | vm_compute; reflexivity]).
  all: try (intros Hran Hcode; first [discriminate Hran | congruence | reflexivity]).
Qed.

(** X28. [main] uploads to PyPI exactly when [--prod] is given without
    [--test] and [--check], [pyproject.toml] is there, both tools are found,
    the build and the check succeed and the answer at the prompt is yes in
    any letter case; it uploads to TestPyPI exactly when [--test] is given
    without [--check] and the same steps succeed, with no prompt. *)
Theorem publish_uploads_iff :
  (Publish.ran "twine upload dist/*" (Prog.events run) = true
   <-> Publish.prod args = true
       /\ Publish.test args = false
       /\ Publish.check args = false
       /\ Publish.pyproject_toml_exists world = true
       /\ Publish.returncode world "which twine" = 0%Z
       /\ Publish.returncode world "which build" = 0%Z
       /\ Publish.returncode world "python -m build" = 0%Z
       /\ Publish.returncode world "twine check dist/*" = 0%Z
       /\ exists answer : string,
            Publish.stdin_line world = Some answer /\ Py.lower answer = "yes")
  /\ (Publish.ran "twine upload --repository testpypi dist/*"
        (Prog.events run) = true
      <-> Publish.test args = true
          /\ Publish.check args = false
          /\ Publish.pyproject_toml_exists world = true
          /\ Publish.returncode world "which twine" = 0%Z
          /\ Publish.returncode world "which build" = 0%Z
          /\ Publish.returncode world "python -m build" = 0%Z
          /\ Publish.returncode world "twine check dist/*" = 0%Z).
Proof.
  subst run. publish_cases.
  all: read_tests.
  all: repeat match goal with
              | |- context [Publish.ran ?c ?l] =>
                  let v := eval vm_compute in (Publish.ran c l) in
                  change (Publish.ran c l) with v
              end.
  all: split;
    [ split;
      [ intros Hran;
        first [discriminate Hran | repeat split; solve [eauto]]
      | intros (H1 & H2 & H3 & H4 & H5 & H6 & H7 & H8 & answer & H9 & H10);
        first
          [ reflexivity | discriminate | contradiction
          | injection H9 as <-; contradiction ] ]
    | split;
      [ intros Hran;
        first [discriminate Hran | repeat split; solve [eauto]]
      | intros (H1 & H2 & H3 & H4 & H5 & H6 & H7);
        first [reflexivity | discriminate | contradiction] ] ].
Qed.

End PublishRuns.

(** ** The further properties on concrete calls *)
Section MoreInstances.

Import Sample.

Lemma sample_order_resolves (policy : SafetyConfig) (h : Host.t)
    (force dry_run : bool) :
  Host.get_app_config h = Host.get_app_config (host 0 (Ret (0, [])) None) ->
  Command.resolves h (command policy) (options "shop" "Order" force dry_run)
    order.
Proof.
  intros Hregistry. split; [reflexivity |].
  exists shop, "Order". rewrite Hregistry.
  repeat split; try reflexivity. discriminate.
Qed.

(** No setting, empty environment. *)
Lemma default_policy_allows_iff_witness :
  exists policy : SafetyConfig,
    outcome (Safety.__init__ dev_settings ∅) = Ret policy
    /\ forall (model : Model) (count : Z),
         check_deletion_safety policy model count = Ret true
         <-> (app_label model
              ∉ ["auth"; "admin"; "contenttypes"; "sessions"; "messages";
                 "staticfiles"])
             /\ (count <= 100)%Z.
Proof.
  apply (default_policy_allows_iff dev_settings ∅);
    [reflexivity | apply lookup_empty | apply lookup_empty].
Defined.

(** 50 orders are allowed, hence 5 are. *)
Lemma allowed_for_smaller_counts_witness :
  check_deletion_safety default_policy order 5 = Ret true.
Proof.
  apply (allowed_for_smaller_counts default_policy order 50 5);
    [vm_compute; reflexivity | discriminate].
Defined.

(** What the policy with threshold 50 allows, the default policy allows. *)
Lemma tighter_policy_allows_less_witness :
  check_deletion_safety default_policy order 20 = Ret true.
Proof.
  apply (tighter_policy_allows_less default_policy Sample2.strict_policy order 20).
  - intros _. reflexivity.
  - reflexivity.
  - reflexivity.
  - discriminate.
  - vm_compute. reflexivity.
Defined.

(** A confirmed admin deletion on a host whose delete fails. *)
Lemma admin_reports_host_failure_witness :
  outcome (Admin.delete_all_action Sample2.failing_host default_policy
             order_admin confirming_request []) = Ret None.
Proof.
  destruct (admin_reports_host_failure Sample2.failing_host default_policy
              order_admin confirming_request []
              (HostError "database is locked"))
    as [Hout _]; [vm_compute; reflexivity | reflexivity | exact Hout].
Defined.

(** The users of an empty table, through the admin. *)
Lemma admin_blocks_excluded_application_witness :
  outcome (Admin.delete_all_action (host 0 (Ret (0, [])) None) default_policy
             Sample2.user_admin confirming_request []) = Ret None.
Proof.
  destruct (admin_blocks_excluded_application (host 0 (Ret (0, [])) None)
              default_policy Sample2.user_admin confirming_request [])
    as [Hout _];
    [ reflexivity | reflexivity
    | apply (bool_decide_unpack _); vm_compute; exact I | exact Hout ].
Defined.

(** The answer [no]. *)
Lemma command_cancelled_by_other_answer_witness :
  outcome (Command.handle (host 5 (Ret (5, [])) (Some "no"))
             (command default_policy) (options "shop" "Order" false false))
  = Ret tt.
Proof.
  rewrite (command_cancelled_by_other_answer
             (host 5 (Ret (5, [])) (Some "no")) (command default_policy)
             (options "shop" "Order" false false) order "no").
  - reflexivity.
  - now apply sample_order_resolves.
  - discriminate.
  - reflexivity.
  - reflexivity.
  - reflexivity.
  - vm_compute. discriminate.
Defined.

(** A forced deletion. *)
Lemma command_force_never_prompts_witness :
  forallb (fun ev => negb (Trace.is_prompt ev))
    (trace (Command.handle (host 5 (Ret (5, [])) None) (command default_policy)
              (options "shop" "Order" true false))) = true.
Proof.
  apply (command_force_never_prompts (host 5 (Ret (5, [])) None)
           (command default_policy) (options "shop" "Order" true false)).
  reflexivity.
Defined.

(** A forced deletion on a host whose delete fails. *)
Lemma command_reports_host_failure_witness :
  outcome (Command.handle Sample2.failing_host (command default_policy)
             (options "shop" "Order" true false))
  = Raise (CommandError "Error during deletion: database is locked").
Proof.
  destruct (command_reports_host_failure Sample2.failing_host
              (command default_policy) (options "shop" "Order" true false)
              order (HostError "database is locked"))
    as [Hout _].
  - now apply sample_order_resolves.
  - reflexivity.
  - discriminate.
  - vm_compute. reflexivity.
  - exact Hout.
Defined.

(** A forced deletion that the host carries out. *)
Lemma command_after_successful_delete_witness :
  In (EvStdout StyleSuccess "Successfully deleted 5 orders.")
    (trace (Command.handle (host 5 (Ret (5, [])) None) (command default_policy)
              (options "shop" "Order" true false))).
Proof.
  destruct (command_after_successful_delete (host 5 (Ret (5, [])) None)
              (command default_policy) (options "shop" "Order" true false)
              order 5 [])
    as [Hline _].
  - now apply sample_order_resolves.
  - reflexivity.
  - vm_compute. reflexivity.
  - exact Hline.
Defined.

(** Two safe processes with the same policy. *)
Lemma command_guard_is_the_only_environment_test_witness :
  Command.handle (host 5 (Ret (5, [])) None) (command default_policy)
    (options "shop" "Order" true false)
  = Command.handle (host 5 (Ret (5, [])) None) Sample2.other_command
      (options "shop" "Order" true false).
Proof.
  apply (proj1 (command_guard_is_the_only_environment_test
                  (host 5 (Ret (5, [])) None) (command default_policy)
                  Sample2.other_command (options "shop" "Order" true false)
                  eq_refl eq_refl));
    vm_compute; reflexivity.
Defined.

(** [--settings=other.settings] in a process that has
    [DJANGO_SETTINGS_MODULE=shop.settings]. *)
Lemma setup_keeps_environment_settings_module_witness :
  Cli.environ
    (Prog.final
       (Cli._setup_django Sample2.os (Some "other.settings") false Sample2.proc))
  = Cli.environ Sample2.proc.
Proof.
  destruct (setup_keeps_environment_settings_module Sample2.os
              (Some "other.settings") false Sample2.proc
              (Prog.final
                 (Cli._setup_django Sample2.os (Some "other.settings") false
                    Sample2.proc))
              (Prog.events
                 (Cli._setup_django Sample2.os (Some "other.settings") false
                    Sample2.proc)))
    as [Hkept _]; [vm_compute; reflexivity |].
  apply (Hkept "shop.settings"). vm_compute. reflexivity.
Defined.

(** The command line without [--force] on a closed terminal: the prompt
    fails, and the entry point reports it. *)
Lemma delete_exit_status_witness :
  snd (Cli.delete Sample2.os (host 5 (Ret (5, [])) None) "shop" (Some "Order")
         false false false None false Sample2.proc)
  = 1%Z
  /\ exists before : list Cli.Event,
       fst (fst (Cli.delete Sample2.os (host 5 (Ret (5, [])) None) "shop"
                   (Some "Order") false false false None false Sample2.proc))
       = (before ++ [Cli.Echo true "Error: EOF when reading a line"])%list.
Proof.
  set (result := Cli.delete Sample2.os (host 5 (Ret (5, [])) None) "shop"
                   (Some "Order") false false false None false Sample2.proc).
  destruct (delete_exit_status Sample2.os (host 5 (Ret (5, [])) None) "shop"
              (Some "Order") false false false None false Sample2.proc
              (snd (fst result)) (fst (fst result)) (snd result))
    as (_ & Hfailed & _); [vm_compute; reflexivity |].
  destruct Hfailed as (Hstatus & before & text & Htrace & Hwhy);
    [vm_compute; discriminate |].
  split; [exact Hstatus |]. exists before. rewrite Htrace.
  destruct Hwhy as [(e & Hsetup & _) | (e & Hraised & ->)].
  - vm_compute in Hsetup. discriminate Hsetup.
  - vm_compute in Hraised. injection Hraised as <-. reflexivity.
Defined.

(** The same call of the command itself: the [EOFError] of the prompt
    leaves [handle] before anything is evaluated or deleted. *)
Lemma command_wraps_exceptions_after_evaluation_witness :
  forallb (fun ev =>
             negb (Trace.is_safety_check ev)
             && negb (Trace.is_host_delete ev)
             && negb (Trace.is_success_report ev))
    (trace (Command.handle (host 5 (Ret (5, [])) None)
              (command default_policy) (options "shop" "Order" false false)))
  = true.
Proof.
  apply (proj2 (command_wraps_exceptions_after_evaluation
                  (host 5 (Ret (5, [])) None) (command default_policy)
                  (options "shop" "Order" false false)) EOFError);
    [reflexivity | intros text; discriminate].
Defined.

End MoreInstances.
